(** * Workspace metadata counter: a shallow embedding of [main.go]

    The repository holds two variants of one command-line program.  Both
    list the workspaces of a Kong admin API, fetch the metadata counts of
    every workspace, add them up and print tables.

    - [Reflective] embeds the variant whose [Metadata] is a fixed struct
      and whose [updateCounts] walks it by reflection.
    - [MapBased] embeds the variant whose [Metadata.Counts] is a
      [map[string]int], with the [--meta] flag and the sorted totals table.

    Go strings are byte strings: [string] is used as it is.  Go's [int] is
    modelled as [Z] with the 64-bit two's-complement wrap-around written
    out.  A Go map is a [gmap]; the order in which [range] visits it is
    left open.  Everything outside the repository (the HTTP transport, the
    JSON decoder, the process environment, a few functions of the Go
    standard library) is taken as a parameter. *)

From Stdlib Require Import Ascii.
From stdpp Require Import gmap strings list fin_maps sorting pretty.

Local Open Scope Z_scope.

(** ** Go basics *)

(** A Go [(T, error)] pair used as a result: the value, or the message of
    the error. *)
Inductive result (A : Type) : Type :=
  | Ok (a : A)
  | Err (e : string).
Arguments Ok {A} a.
Arguments Err {A} e.

(** [int] on a 64-bit platform. *)
Definition int_min : Z := - 2 ^ 63.
Definition int_max : Z := 2 ^ 63 - 1.
Definition is_int (z : Z) : Prop := int_min ≤ z ≤ int_max.
Definition int_wrap (z : Z) : Z := (z + 2 ^ 63) `mod` 2 ^ 64 - 2 ^ 63.
(** [x + y] on [int]. *)
Definition int_add (x y : Z) : Z := int_wrap (x + y).

(** [strconv.Itoa], and [fmt.Sprint] of an [int]. *)
Definition Itoa (z : Z) : string := pretty z.

(** [strings.Split(s, sep)] for a separator of one byte. *)
Fixpoint Split (s : string) (sep : ascii) : list string :=
  match s with
  | EmptyString => [EmptyString]
  | String c rest =>
      if decide (c = sep) then EmptyString :: Split rest sep
      else match Split rest sep with
           | [] => [String c EmptyString]
           | part :: parts => String c part :: parts
           end
  end.

(** [http.Header]: field name to the list of its values. *)
Abbreviation Header := (gmap string (list string)).

(** [*http.Request], as far as the program sets it. *)
Record Request : Type := mkRequest {
  Method : string;
  URL : string;
  ReqHeader : Header
}.

(** [*http.Response]: what [ioutil.ReadAll(resp.Body)] gives. *)
Record Response : Type := mkResponse {
  ReadAll : result string
}.

(** The process environment and the network. *)
Record World : Type := mkWorld {
  Getenv : string → string;
  http_Get : string → result Response;
  client_Do : Request → result Response
}.

(** What the program does to the outside, in order. *)
Inductive Event : Type :=
  | HttpGet (url : string)
  | HttpDo (req : Request)
  | Println (line : string)
  | Render (header : list string) (rows : list (list string)).

(** Functions of the Go runtime and standard library that the program
    calls and that are not part of the repository. *)
Class GoRuntime : Type := {
  (** the entries of a [map[string]int] in the order [range] visits them *)
  map_range : gmap string Z → list (string * Z);
  map_range_perm : ∀ m, map_range m ≡ₚ map_to_list m;
  (** [sort.Slice]; no stability is promised *)
  sort_Slice : ∀ {A : Type}, (A → A → bool) → list A → list A;
  sort_Slice_perm : ∀ {A : Type} (less : A → A → bool) (l : list A),
    sort_Slice less l ≡ₚ l;
  sort_Slice_sorted : ∀ {A : Type} (key : A → Z) (l : list A),
    StronglySorted (λ a b, key a ≤ key b)
      (sort_Slice (λ a b, bool_decide (key a < key b)) l);
  (** [strings.TrimSpace] *)
  TrimSpace : string → string;
  (** [textproto.CanonicalMIMEHeaderKey], applied by [Header.Set] *)
  CanonicalMIMEHeaderKey : string → string;
  (** the error of [url.Parse] inside [http.NewRequest], if any *)
  url_Parse_error : string → option string
}.

(** [json.Unmarshal(body, &v)] for a [v] of type [A]. *)
Class Unmarshal (A : Type) : Type :=
  json_Unmarshal : string → result A.

(** Programs produce a trace of events next to their value. *)
Definition IO (A : Type) : Type := list Event * A.

Global Instance IO_ret : MRet IO := λ A a, ([], a).
Global Instance IO_bind : MBind IO := λ A B k m,
  let '(t1, a) := m in let '(t2, b) := k a in (t1 ++ t2, b).

Definition emit (e : Event) : IO unit := ([e], tt).
Definition trace {A : Type} (m : IO A) : list Event := m.1.
Definition value {A : Type} (m : IO A) : A := m.2.

Section GoLib.
Context `{GoRuntime}.

(** [h.Set(key, value)] *)
Definition Header_Set (h : Header) (key val : string) : Header :=
  <[CanonicalMIMEHeaderKey key := [val]]> h.

(** [http.NewRequest(method, url, nil)] *)
Definition NewRequest (method url : string) : result Request :=
  match url_Parse_error url with
  | Some e => Err e
  | None => Ok (mkRequest method url ∅)
  end.
End GoLib.

(** ** The reflective variant (first program of [main.go]) *)

Module Reflective.

Record Workspace : Type := mkWorkspace {
  Name : string;
  ID : string
}.

Record WorkspaceResponse : Type := mkWorkspaceResponse {
  Data : list Workspace
}.

(** The anonymous struct type of [Metadata.Counts]. *)
Record CountsStruct : Type := mkCounts {
  Plugins : Z;
  Targets : Z;
  Services : Z;
  Routes : Z;
  Upstreams : Z
}.

Record Metadata : Type := mkMetadata {
  Counts : CountsStruct
}.

Record WorkspaceMetadata : Type := mkWorkspaceMetadata {
  WorkspaceName : string;
  Meta : Metadata
}.

(** The values of the flags after [flag.Parse()]. *)
Record Flags : Type := mkFlags {
  flag_kong_addr : string;
  flag_headers : string
}.

(** What [reflect.ValueOf] shows of a value: its kind, and for a struct
    the names and values of its fields in declaration order. *)
#[warnings="-register-all"]
Inductive Value : Type :=
  | IntV (n : Z)
  | StructV (fields : list (string * Value))
  | OtherV.

Definition reflect_Counts (c : CountsStruct) : Value :=
  StructV [("Plugins", IntV (Plugins c)); ("Targets", IntV (Targets c));
           ("Services", IntV (Services c)); ("Routes", IntV (Routes c));
           ("Upstreams", IntV (Upstreams c))].

Definition reflect_Metadata (m : Metadata) : Value :=
  StructV [("Counts", reflect_Counts (Counts m))].

(** [m[key]] on a [map[string]int]: zero when the key is absent. *)
Definition index (m : gmap string Z) (key : string) : Z :=
  default 0 (m !! key).

(** [None] stands for the panic of [NumField] on a value that is not a
    struct. *)
Fixpoint updateCounts (obj : Value) (counts : gmap string Z)
    : option (gmap string Z) :=
  match obj with
  | StructV fields =>
      (fix fieldLoop (fields : list (string * Value))
           (counts : gmap string Z) : option (gmap string Z) :=
         match fields with
         | [] => Some counts
         | (name, fieldValue) :: rest =>
             match fieldValue with
             | IntV n =>
                 if decide (n ≠ 0) then
                   fieldLoop rest
                     (<[name := int_add (index counts name) n]> counts)
                 else fieldLoop rest counts
             | StructV _ =>
                 match updateCounts fieldValue counts with
                 | Some counts => fieldLoop rest counts
                 | None => None
                 end
             | OtherV => fieldLoop rest counts
             end
         end) fields counts
  | _ => None
  end.

Section Program.
Context `{!GoRuntime, !Unmarshal WorkspaceResponse, !Unmarshal Metadata}.
Context (w : World).

Definition getWorkspaces (url : string) : IO (result (list Workspace)) :=
  emit (HttpGet url);;
  match http_Get w url with
  | Err e => mret (Err e)
  | Ok resp =>
      match ReadAll resp with
      | Err e => mret (Err e)
      | Ok body =>
          match json_Unmarshal body with
          | Err e => mret (Err e)
          | Ok response => mret (Ok (Data response))
          end
      end
  end.

Definition getMetadata (url : string) (headers : Header)
    : IO (result Metadata) :=
  match NewRequest "GET" url with
  | Err e => mret (Err e)
  | Ok req =>
      let req := mkRequest (Method req) (URL req) headers in
      emit (HttpDo req);;
      match client_Do w req with
      | Err e => mret (Err e)
      | Ok resp =>
          match ReadAll resp with
          | Err e => mret (Err e)
          | Ok body =>
              match json_Unmarshal body with
              | Err e => mret (Err e)
              | Ok meta => mret (Ok meta)
              end
          end
      end
  end.

Definition workspaceRow (workspaceMetadata : WorkspaceMetadata)
    : list string :=
  let meta := Meta workspaceMetadata in
  [WorkspaceName workspaceMetadata;
   Itoa (Plugins (Counts meta));
   Itoa (Targets (Counts meta));
   Itoa (Services (Counts meta));
   Itoa (Routes (Counts meta));
   Itoa (Upstreams (Counts meta))].

Definition printWorkspaceMetadataTable
    (workspaceMetadataList : list WorkspaceMetadata) : IO unit :=
  emit (Render
    ["Workspace"; "Plugins"; "Targets"; "Services"; "Routes";
     "Upstreams"]
    (workspaceRow <$> workspaceMetadataList)).

(** The rows of the totals table as (label, count), in the order they are
    appended: one per entry of [counts], then the workspace count. *)
Definition countsTableRows (counts : gmap string Z) (workspaceCount : Z)
    : list (string * Z) :=
  map_range counts ++ [("Workspaces", workspaceCount)].

(** A row as appended to the table: the label and [fmt.Sprint] of the
    count. *)
Definition countRow (row : string * Z) : list string :=
  [row.1; Itoa row.2].

Definition printCountsTable (counts : gmap string Z)
    (workspaceCount : Z) : IO unit :=
  emit (Render ["Meta Field"; "Count"]
    (countRow <$> countsTableRows counts workspaceCount)).

Definition getHeaders (headersFlag : string) : Header :=
  let headers : Header := ∅ in
  let headers :=
    if decide (headersFlag ≠ "") then
      match Split headersFlag ":" with
      | [headerKey; headerValue] =>
          Header_Set headers (TrimSpace headerKey)
            (TrimSpace headerValue)
      | _ => headers
      end
    else headers in
  let token := Getenv w "X_ADMIN_TOKEN" in
  if decide (token ≠ "") then Header_Set headers "x-admin-token" token
  else headers.

(** The address the program talks to, after the fallbacks at the top of
    [main]. *)
Definition kongAddr (args : Flags) : string :=
  if decide (flag_kong_addr args = "") then
    if decide (Getenv w "KONG_ADMIN_ADDR" = "") then
      "http://localhost:8001"
    else Getenv w "KONG_ADMIN_ADDR"
  else flag_kong_addr args.

(** The loop of [main] over the workspaces; the state is [counts] and
    [workspaceMetadataList].  [None] is the panic of [updateCounts]. *)
Fixpoint fetchAll (urlPtr : string) (headers : Header)
    (workspaces : list Workspace)
    (counts : gmap string Z)
    (workspaceMetadataList : list WorkspaceMetadata)
    : IO (option (gmap string Z * list WorkspaceMetadata)) :=
  match workspaces with
  | [] => mret (Some (counts, workspaceMetadataList))
  | workspace :: rest =>
      let metaURL :=
        urlPtr +:+ "/workspaces/" +:+ Name workspace +:+ "/meta" in
      r ← getMetadata metaURL headers;
      match r with
      | Err e =>
          emit (Println ("Error getting metadata for workspace "
                           +:+ Name workspace +:+ ": " +:+ e));;
          fetchAll urlPtr headers rest counts workspaceMetadataList
      | Ok meta =>
          match updateCounts (reflect_Metadata meta) counts with
          | None => mret None
          | Some counts =>
              let workspaceMetadata :=
                mkWorkspaceMetadata (Name workspace) meta in
              fetchAll urlPtr headers rest counts
                (workspaceMetadataList ++ [workspaceMetadata])
          end
      end
  end.

Definition main (args : Flags) : IO unit :=
  let urlPtr := kongAddr args in
  let headers := getHeaders (flag_headers args) in
  let workspacesURL := urlPtr +:+ "/workspaces" in
  r ← getWorkspaces workspacesURL;
  match r with
  | Err e => emit (Println ("Error getting workspaces: " +:+ e))
  | Ok workspaces =>
      st ← fetchAll urlPtr headers workspaces ∅ [];
      match st with
      | None => mret tt
      | Some (counts, workspaceMetadataList) =>
          emit (Println "Individual Workspace Metadata:");;
          printWorkspaceMetadataTable workspaceMetadataList;;
          emit (Println "Total Entity Counts:");;
          printCountsTable counts (Z.of_nat (length workspaces))
      end
  end.
End Program.

End Reflective.

(** ** The map-based variant (second program of [main.go]) *)

Module MapBased.

Record Workspace : Type := mkWorkspace {
  Name : string;
  ID : string
}.

Record WorkspaceResponse : Type := mkWorkspaceResponse {
  Data : list Workspace
}.

(** [Counts] is a [map[string]int]; a nil map reads as the empty one. *)
Record Metadata : Type := mkMetadata {
  Counts : gmap string Z
}.

Record WorkspaceMetadata : Type := mkWorkspaceMetadata {
  WorkspaceName : string;
  Meta : Metadata
}.

(** The struct local to [printCountsTable]. *)
Record MetaField : Type := mkMetaField {
  Field : string;
  Count : Z
}.

(** The values of the flags after [flag.Parse()]. *)
Record Flags : Type := mkFlags {
  flag_kong_addr : string;
  flag_headers : string;
  flag_meta : string
}.

Section Program.
Context `{!GoRuntime, !Unmarshal WorkspaceResponse, !Unmarshal Metadata}.
Context (w : World).

Definition getWorkspaces (url : string) : IO (result (list Workspace)) :=
  emit (HttpGet url);;
  match http_Get w url with
  | Err e => mret (Err e)
  | Ok resp =>
      match ReadAll resp with
      | Err e => mret (Err e)
      | Ok body =>
          match json_Unmarshal body with
          | Err e => mret (Err e)
          | Ok response => mret (Ok (Data response))
          end
      end
  end.

(** The request [getMetadata] hands to [client.Do]: the header flag is
    applied when it is not empty and splits into exactly two parts. *)
Definition addHeaders (req : Request) (headers : string) : Request :=
  if decide (headers ≠ "") then
    match Split headers ":" with
    | [key; val] =>
        mkRequest (Method req) (URL req)
          (Header_Set (ReqHeader req) (TrimSpace key) (TrimSpace val))
    | _ => req
    end
  else req.

Definition getMetadata (url headers : string) : IO (result Metadata) :=
  match NewRequest "GET" url with
  | Err e => mret (Err e)
  | Ok req =>
      let req := addHeaders req headers in
      emit (HttpDo req);;
      match client_Do w req with
      | Err e => mret (Err e)
      | Ok resp =>
          match ReadAll resp with
          | Err e => mret (Err e)
          | Ok body =>
              match json_Unmarshal body with
              | Err e => mret (Err e)
              | Ok metadata => mret (Ok metadata)
              end
          end
      end
  end.

(** One turn of the loop of [updateCounts]. *)
Definition addCount (counts : gmap string Z) (entry : string * Z)
    : gmap string Z :=
  let '(key, val) := entry in
  match counts !! key with
  | Some count => <[key := int_add count val]> counts
  | None => <[key := val]> counts
  end.

Definition updateCounts (metaCounts counts : gmap string Z)
    : gmap string Z :=
  foldl addCount counts (map_range metaCounts).

(** [m[key]] on a [map[string]int]: zero when the key is absent. *)
Definition index (m : gmap string Z) (key : string) : Z :=
  default 0 (m !! key).

Definition workspaceRow (metadata : WorkspaceMetadata) : list string :=
  let plugins := Itoa (index (Counts (Meta metadata)) "plugins") in
  let targets := Itoa (index (Counts (Meta metadata)) "targets") in
  let services := Itoa (index (Counts (Meta metadata)) "services") in
  let routes := Itoa (index (Counts (Meta metadata)) "routes") in
  let upstreams := Itoa (index (Counts (Meta metadata)) "upstreams") in
  [WorkspaceName metadata; plugins; targets; services; routes; upstreams].

Definition printWorkspaceMetadataTable
    (metadataList : list WorkspaceMetadata) : IO unit :=
  emit (Render
    ["Workspace Name"; "Plugins"; "Targets"; "Services"; "Routes";
     "Upstreams"]
    (workspaceRow <$> metadataList)).

Definition less (a b : MetaField) : bool :=
  bool_decide (Count a < Count b).

(** The slice [metaFields] of [printCountsTable] after [sort.Slice]. *)
Definition sortedMetaFields (counts : gmap string Z) : list MetaField :=
  let metaFields :=
    (λ entry : string * Z, mkMetaField entry.1 entry.2)
      <$> map_range counts in
  sort_Slice less metaFields.

(** The rows of the totals table as (label, count), in the order they are
    appended: the workspace count, then the sorted meta fields. *)
Definition countsTableRows (counts : gmap string Z) (workspaceCount : Z)
    : list (string * Z) :=
  ("Workspaces", workspaceCount)
    :: ((λ metaField, (Field metaField, Count metaField))
          <$> sortedMetaFields counts).

(** A row as appended to the table: the label and [strconv.Itoa] of the
    count. *)
Definition countRow (row : string * Z) : list string :=
  [row.1; Itoa row.2].

Definition printCountsTable (counts : gmap string Z)
    (workspaceCount : Z) : IO unit :=
  emit (Render ["Meta Field"; "Count"]
    (countRow <$> countsTableRows counts workspaceCount)).

(** The address the program talks to, after the fallbacks at the top of
    [main]. *)
Definition kongAddr (args : Flags) : string :=
  if decide (flag_kong_addr args = "") then
    if decide (Getenv w "KONG_ADMIN_ADDR" = "") then
      "http://localhost:8001"
    else Getenv w "KONG_ADMIN_ADDR"
  else flag_kong_addr args.

(** The loop of [main] over the workspaces; the state is [counts] and
    [workspaceMetadataList]. *)
Fixpoint fetchAll (urlPtr headersPtr : string)
    (workspaces : list Workspace)
    (counts : gmap string Z)
    (workspaceMetadataList : list WorkspaceMetadata)
    : IO (gmap string Z * list WorkspaceMetadata) :=
  match workspaces with
  | [] => mret (counts, workspaceMetadataList)
  | workspace :: rest =>
      let metaURL :=
        urlPtr +:+ "/workspaces/" +:+ Name workspace +:+ "/meta" in
      r ← getMetadata metaURL headersPtr;
      match r with
      | Err e =>
          emit (Println ("Error getting metadata for workspace "
                           +:+ Name workspace +:+ ": " +:+ e));;
          fetchAll urlPtr headersPtr rest counts workspaceMetadataList
      | Ok meta =>
          let counts := updateCounts (Counts meta) counts in
          let workspaceMetadata :=
            mkWorkspaceMetadata (Name workspace) meta in
          fetchAll urlPtr headersPtr rest counts
            (workspaceMetadataList ++ [workspaceMetadata])
      end
  end.

Definition main (args : Flags) : IO unit :=
  let urlPtr := kongAddr args in
  let headersPtr := flag_headers args in
  let metaPtr := flag_meta args in
  let workspacesURL := urlPtr +:+ "/workspaces" in
  r ← getWorkspaces workspacesURL;
  match r with
  | Err e => emit (Println ("Error getting workspaces: " +:+ e))
  | Ok workspaces =>
      '(counts, workspaceMetadataList) ←
        fetchAll urlPtr headersPtr workspaces ∅ [];
      (if decide (metaPtr = "workspace" ∨ metaPtr = "all") then
         emit (Println "Individual Workspace Metadata:");;
         printWorkspaceMetadataTable workspaceMetadataList
       else mret tt);;
      (if decide (metaPtr = "counts" ∨ metaPtr = "all") then
         emit (Println "Total Meta Field Counts:");;
         printCountsTable counts
           (Z.of_nat (length workspaceMetadataList))
       else mret tt)
  end.
End Program.

End MapBased.

(** ** A concrete runtime

    One admissible choice for every parameter of [GoRuntime], used to run
    the programs on concrete inputs.  [range] visits a map in the order of
    [map_to_list], [sort.Slice] is a merge sort, [TrimSpace] and the
    canonical header key follow Go on ASCII input, and every URL parses. *)

Module Demo.

Definition asciiSpace (c : ascii) : bool :=
  bool_decide (c ∈ [" "; "009"; "010"; "011"; "012"; "013"]%char).

Fixpoint trimLeft (s : string) : string :=
  match s with
  | EmptyString => EmptyString
  | String c rest => if asciiSpace c then trimLeft rest else s
  end.

Fixpoint trimRight (s : string) : string :=
  match s with
  | EmptyString => EmptyString
  | String c rest =>
      match trimRight rest with
      | EmptyString => if asciiSpace c then EmptyString else String c EmptyString
      | rest' => String c rest'
      end
  end.

Definition asciiTrimSpace (s : string) : string := trimRight (trimLeft s).

Definition isLower (c : ascii) : bool :=
  (97 <=? N_of_ascii c)%N && (N_of_ascii c <=? 122)%N.
Definition isUpper (c : ascii) : bool :=
  (65 <=? N_of_ascii c)%N && (N_of_ascii c <=? 90)%N.
Definition isDigit (c : ascii) : bool :=
  (48 <=? N_of_ascii c)%N && (N_of_ascii c <=? 57)%N.

(** The bytes allowed in a header field name. *)
Definition validHeaderFieldByte (c : ascii) : bool :=
  isLower c || isUpper c || isDigit c
  || bool_decide (c ∈ ["!"; "#"; "$"; "%"; "&"; "'"; "*"; "+"; "-"; ".";
                       "^"; "_"; "`"; "|"; "~"]%char).

Fixpoint allValid (s : string) : bool :=
  match s with
  | EmptyString => true
  | String c rest => validHeaderFieldByte c && allValid rest
  end.

(** Upper case at the start and after a dash, lower case elsewhere. *)
Fixpoint capitalize (upper : bool) (s : string) : string :=
  match s with
  | EmptyString => EmptyString
  | String c rest =>
      let c' :=
        if upper && isLower c then ascii_of_N (N_of_ascii c - 32)
        else if negb upper && isUpper c then ascii_of_N (N_of_ascii c + 32)
        else c in
      String c' (capitalize (bool_decide (c' = "-"%char)) rest)
  end.

Definition canonicalKey (s : string) : string :=
  if allValid s then capitalize true s else s.

Definition mergeSortSlice {A : Type} (less : A → A → bool) (l : list A)
    : list A :=
  @merge_sort A (λ a b, less b a = false)
    (λ a b, decide_rel (=) (less b a) false) l.

Lemma mergeSortSlice_perm {A : Type} (less : A → A → bool) (l : list A) :
  mergeSortSlice less l ≡ₚ l.
Proof. apply merge_sort_Permutation. Qed.

Lemma mergeSortSlice_sorted {A : Type} (key : A → Z) (l : list A) :
  StronglySorted (λ a b, key a ≤ key b)
    (mergeSortSlice (λ a b, bool_decide (key a < key b)) l).
Proof.
  unfold mergeSortSlice.
  set (R := λ a b : A, bool_decide (key b < key a) = false).
  assert (HR : ∀ a b, R a b ↔ key a ≤ key b).
  { intros a b. unfold R. rewrite bool_decide_eq_false. lia. }
  assert (Total R) by (intros a b; rewrite !HR; lia).
  assert (Transitive R) by (intros a b c; rewrite !HR; lia).
  pose proof (@StronglySorted_merge_sort A R
    (λ a b, decide_rel (=) (bool_decide (key b < key a)) false) _ _ l) as Hs.
  induction Hs as [|a l' _ IH Hall]; constructor; [done|].
  eapply Forall_impl; [exact Hall|]. intros b. apply HR.
Qed.

#[export] Instance runtime : GoRuntime := {|
  map_range := map_to_list;
  map_range_perm := λ m, reflexivity (map_to_list m);
  sort_Slice := @mergeSortSlice;
  sort_Slice_perm := @mergeSortSlice_perm;
  sort_Slice_sorted := @mergeSortSlice_sorted;
  TrimSpace := asciiTrimSpace;
  CanonicalMIMEHeaderKey := canonicalKey;
  url_Parse_error := λ _, None
|}.

(** A response whose body reads without error. *)
Definition body (s : string) : result Response := Ok (mkResponse (Ok s)).

(** The demo server: workspaces [a] and [b]; the list is served as body
    [list], the metadata of [a] as body [meta-a] and, when [b_up] holds,
    that of [b] as body [meta-b]; otherwise the connection to [b]'s
    metadata is refused. *)
Definition world (env : string → string) (b_up : bool) : World := {|
  Getenv := env;
  http_Get := λ url, body "list";
  client_Do := λ req,
    if decide (URL req = "http://localhost:8001/workspaces/a/meta") then
      body "meta-a"
    else if b_up then body "meta-b"
    else Err "connection refused"
|}.

(** A server whose workspace list cannot be fetched. *)
Definition deadWorld : World := {|
  Getenv := λ _, "";
  http_Get := λ url, Err "connection refused";
  client_Do := λ req, Err "connection refused"
|}.

Definition noEnv : string → string := λ _, "".

Definition addrEnv : string → string := λ name,
  if decide (name = "KONG_ADMIN_ADDR") then "http://kong:8001" else "".

Definition tokenEnv : string → string := λ name,
  if decide (name = "X_ADMIN_TOKEN") then "envtok" else "".

(** Decoders that know the three bodies of the demo server. *)
#[export] Instance listDecoderR : Unmarshal Reflective.WorkspaceResponse :=
  λ b,
    if decide (b = "list") then
      Ok (Reflective.mkWorkspaceResponse
            [Reflective.mkWorkspace "a" "1"; Reflective.mkWorkspace "b" "2"])
    else Err "unexpected end of JSON input".

#[export] Instance metaDecoderR : Unmarshal Reflective.Metadata :=
  λ b,
    if decide (b = "meta-a") then
      Ok (Reflective.mkMetadata (Reflective.mkCounts 2 0 0 0 0))
    else if decide (b = "meta-b") then
      Ok (Reflective.mkMetadata (Reflective.mkCounts 3 0 0 1 0))
    else Err "unexpected end of JSON input".

#[export] Instance listDecoderM : Unmarshal MapBased.WorkspaceResponse :=
  λ b,
    if decide (b = "list") then
      Ok (MapBased.mkWorkspaceResponse
            [MapBased.mkWorkspace "a" "1"; MapBased.mkWorkspace "b" "2"])
    else Err "unexpected end of JSON input".

#[export] Instance metaDecoderM : Unmarshal MapBased.Metadata :=
  λ b,
    if decide (b = "meta-a") then
      Ok (MapBased.mkMetadata {["plugins" := 2]})
    else if decide (b = "meta-b") then
      Ok (MapBased.mkMetadata (<["routes" := 1]> {["plugins" := 3]}))
    else Err "unexpected end of JSON input".

(** Decoders for a server without workspaces. *)
Definition emptyListDecoderR : Unmarshal Reflective.WorkspaceResponse :=
  λ b, Ok (Reflective.mkWorkspaceResponse []).

Definition emptyListDecoderM : Unmarshal MapBased.WorkspaceResponse :=
  λ b, Ok (MapBased.mkWorkspaceResponse []).

End Demo.

(** ** Vocabulary of the properties

    Names for what the statements below talk about: the workspaces whose
    metadata could be fetched, the sum of their counts, the tables of a
    trace, the colons of a flag. *)

(** The tables a trace renders, in order. *)
Definition tables (t : list Event) : list (list string * list (list string)) :=
  omap (λ e, match e with Render h rows => Some (h, rows) | _ => None end) t.

(** The requests a trace hands to [client.Do], in order. *)
Definition requests (t : list Event) : list Request :=
  omap (λ e, match e with HttpDo req => Some req | _ => None end) t.

(** How many times the byte [sep] occurs in [s]. *)
Fixpoint occurrences (sep : ascii) (s : string) : nat :=
  match s with
  | EmptyString => 0
  | String c rest =>
      if decide (c = sep) then S (occurrences sep rest)
      else occurrences sep rest
  end.

(** Rows of a totals table, as (label, count), in non-decreasing order of
    count: the count of every row is at most that of every later row. *)
Definition rowsAscending (rows : list (string * Z)) : Prop :=
  StronglySorted (λ earlier later, earlier.2 ≤ later.2) rows.

(** The workspace list cannot be had from [url], with error [e]: the GET
    fails, or reading the body fails, or the body does not decode. *)
Definition listFails {A : Type} `{!Unmarshal A} (w : World) (url e : string)
    : Prop :=
  http_Get w url = Err e
  ∨ ∃ resp, http_Get w url = Ok resp
      ∧ (ReadAll resp = Err e
         ∨ ∃ body, ReadAll resp = Ok body
             ∧ json_Unmarshal (A := A) body = Err e).

(** The lines a trace prints, in order. *)
Definition printed (t : list Event) : list string :=
  omap (λ e, match e with Println line => Some line | _ => None end) t.

(** The sum of a list of integers, in [Z]. *)
Definition Zsum (l : list Z) : Z := foldr Z.add 0 l.

(** Every value of the map is a Go [int]. *)
Definition intValued (m : gmap string Z) : Prop :=
  ∀ k v, m !! k = Some v → is_int v.


Module ReflectiveSpec.
Import Reflective.


(** The integer fields [updateCounts] meets in a [Metadata], by name. *)
Definition countFields (m : Metadata) : list (string * Z) :=
  [("Plugins", Plugins (Counts m)); ("Targets", Targets (Counts m));
   ("Services", Services (Counts m)); ("Routes", Routes (Counts m));
   ("Upstreams", Upstreams (Counts m))].

(** [counts[name] += n], done for a non-zero [n] only. *)
Definition bump (counts : gmap string Z) (field : string * Z)
    : gmap string Z :=
  if decide (field.2 ≠ 0) then
    <[field.1 := int_add (index counts field.1) field.2]> counts
  else counts.

(** The counts of one workspace added to [counts]. *)
Definition addMetadata (counts : gmap string Z) (m : Metadata)
    : gmap string Z :=
  foldl bump counts (countFields m).

(** The sum of the counts of a list of workspaces. *)
Definition aggregate (l : list WorkspaceMetadata) : gmap string Z :=
  foldl addMetadata ∅ (Meta <$> l).

Section Fetched.
Context `{!GoRuntime, !Unmarshal Metadata} (w : World).

(** The request for the metadata of [workspace], if its URL parses. *)
Definition requestOf (urlPtr : string) (headers : Header)
    (workspace : Workspace) : option Request :=
  let metaURL := urlPtr +:+ "/workspaces/" +:+ Name workspace +:+ "/meta" in
  match url_Parse_error metaURL with
  | Some _ => None
  | None => Some (mkRequest "GET" metaURL headers)
  end.

(** The line printed for [workspace], if its metadata cannot be had. *)
Definition errorLineOf (urlPtr : string) (headers : Header)
    (workspace : Workspace) : option string :=
  match value (getMetadata w
          (urlPtr +:+ "/workspaces/" +:+ Name workspace +:+ "/meta")
          headers) with
  | Ok _ => None
  | Err e =>
      Some ("Error getting metadata for workspace " +:+ Name workspace
              +:+ ": " +:+ e)
  end.

Definition fetchOne (urlPtr : string) (headers : Header)
    (workspace : Workspace) : option WorkspaceMetadata :=
  match value (getMetadata w
          (urlPtr +:+ "/workspaces/" +:+ Name workspace +:+ "/meta")
          headers) with
  | Ok meta => Some (mkWorkspaceMetadata (Name workspace) meta)
  | Err _ => None
  end.

(** The workspaces whose metadata was fetched and decoded, in list
    order, with their metadata. *)
Definition fetched (urlPtr : string) (headers : Header)
    (workspaces : list Workspace) : list WorkspaceMetadata :=
  omap (fetchOne urlPtr headers) workspaces.
End Fetched.

End ReflectiveSpec.

Module MapBasedSpec.
Import MapBased.

Section Fetched.
Context `{!GoRuntime, !Unmarshal Metadata} (w : World).

(** The sum of the counts of a list of workspaces. *)
Definition aggregate (l : list WorkspaceMetadata) : gmap string Z :=
  foldl (λ counts m, updateCounts m counts) ∅ ((Counts ∘ Meta) <$> l).

(** The request for the metadata of [workspace], if its URL parses. *)
Definition requestOf (urlPtr headersPtr : string)
    (workspace : Workspace) : option Request :=
  let metaURL := urlPtr +:+ "/workspaces/" +:+ Name workspace +:+ "/meta" in
  match url_Parse_error metaURL with
  | Some _ => None
  | None => Some (addHeaders (mkRequest "GET" metaURL ∅) headersPtr)
  end.

(** The line printed for [workspace], if its metadata cannot be had. *)
Definition errorLineOf (urlPtr headersPtr : string)
    (workspace : Workspace) : option string :=
  match value (getMetadata w
          (urlPtr +:+ "/workspaces/" +:+ Name workspace +:+ "/meta")
          headersPtr) with
  | Ok _ => None
  | Err e =>
      Some ("Error getting metadata for workspace " +:+ Name workspace
              +:+ ": " +:+ e)
  end.

Definition fetchOne (urlPtr headersPtr : string)
    (workspace : Workspace) : option WorkspaceMetadata :=
  match value (getMetadata w
          (urlPtr +:+ "/workspaces/" +:+ Name workspace +:+ "/meta")
          headersPtr) with
  | Ok meta => Some (mkWorkspaceMetadata (Name workspace) meta)
  | Err _ => None
  end.

(** The workspaces whose metadata was fetched and decoded, in list
    order, with their metadata. *)
Definition fetched (urlPtr headersPtr : string)
    (workspaces : list Workspace) : list WorkspaceMetadata :=
  omap (fetchOne urlPtr headersPtr) workspaces.
End Fetched.

End MapBasedSpec.

(** * Properties *)

Example Split_one_colon : Split "x-admin-token:secret" ":"%char = ["x-admin-token"; "secret"].
Proof. reflexivity. Qed.

Example Split_no_colon : Split "secret" ":"%char = ["secret"].
Proof. reflexivity. Qed.

Example Split_empty : Split "" ":"%char = [""].
Proof. reflexivity. Qed.

Example Split_two_colons : Split "a:b:c" ":"%char = ["a"; "b"; "c"].
Proof. reflexivity. Qed.

Example Itoa_2 : Itoa 2 = "2".
Proof. reflexivity. Qed.

Example Itoa_neg : Itoa (-15) = "-15".
Proof. reflexivity. Qed.

Example TrimSpace_demo : Demo.asciiTrimSpace "  x-admin-token " = "x-admin-token".
Proof. reflexivity. Qed.

Example canonicalKey_demo : Demo.canonicalKey "x-admin-token" = "X-Admin-Token".
Proof. reflexivity. Qed.

Example canonicalKey_invalid : Demo.canonicalKey "x admin" = "x admin".
Proof. reflexivity. Qed.

(** ** Arithmetic on [int] *)

Lemma int_wrap_id (z : Z) : is_int z → int_wrap z = z.
Proof.
  unfold is_int, int_min, int_max, int_wrap. intros Hz.
  rewrite Z.mod_small by lia. lia.
Qed.

Lemma int_wrap_is_int (z : Z) : is_int (int_wrap z).
Proof.
  unfold is_int, int_min, int_max, int_wrap.
  pose proof (Z.mod_pos_bound (z + 2 ^ 63) (2 ^ 64)). lia.
Qed.

Lemma int_wrap_add_l (x y : Z) : int_wrap (int_wrap x + y) = int_wrap (x + y).
Proof.
  unfold int_wrap. f_equal.
  replace ((x + 2 ^ 63) `mod` 2 ^ 64 - 2 ^ 63 + y + 2 ^ 63)
    with ((x + 2 ^ 63) `mod` 2 ^ 64 + y) by lia.
  rewrite Zplus_mod_idemp_l. f_equal. lia.
Qed.

Lemma int_add_comm (x y : Z) : int_add x y = int_add y x.
Proof. unfold int_add. f_equal. lia. Qed.

Lemma int_add_assoc (x y z : Z) :
  int_add (int_add x y) z = int_add x (int_add y z).
Proof.
  unfold int_add. rewrite int_wrap_add_l.
  rewrite (Z.add_comm x (int_wrap _)), int_wrap_add_l. f_equal. lia.
Qed.

Lemma int_add_swap (x y z : Z) :
  int_add (int_add x y) z = int_add (int_add x z) y.
Proof. unfold int_add. rewrite !int_wrap_add_l. f_equal. lia. Qed.

Lemma int_add_exact (x y : Z) : is_int (x + y) → int_add x y = x + y.
Proof. apply int_wrap_id. Qed.

(** ** Folding a commuting step *)

Section FoldOrder.
Context {A B : Type} (f : B → A → B).
Hypothesis f_swap : ∀ b x y, f (f b x) y = f (f b y) x.

Lemma foldl_swap_perm (l1 l2 : list A) :
  l1 ≡ₚ l2 → ∀ b, foldl f b l1 = foldl f b l2.
Proof.
  induction 1 as [|x l1 l2 _ IH|x y l|l1 l2 l3 _ IH1 _ IH2]; intros b; simpl.
  - done.
  - apply IH.
  - by rewrite f_swap.
  - by rewrite IH1, IH2.
Qed.
End FoldOrder.

(** ** The merge of the map-based variant *)

Section MapMerge.
Context `{!GoRuntime}.

Lemma map_range_NoDup (m : gmap string Z) : NoDup ((map_range m).*1).
Proof. rewrite (map_range_perm m). apply NoDup_fst_map_to_list. Qed.

Lemma list_to_map_map_range (m : gmap string Z) :
  list_to_map (map_range m) = m.
Proof.
  rewrite (list_to_map_proper _ (map_to_list m)).
  - apply list_to_map_to_list.
  - apply map_range_NoDup.
  - apply map_range_perm.
Qed.

Lemma lookup_addCount (counts : gmap string Z) (key k : string) (val : Z) :
  MapBased.addCount counts (key, val) !! k =
    if decide (key = k) then
      Some (match counts !! k with
            | Some count => int_add count val
            | None => val
            end)
    else counts !! k.
Proof.
  unfold MapBased.addCount. case_decide as Hk.
  - subst k. destruct (counts !! key); by rewrite lookup_insert_eq.
  - destruct (counts !! key); by rewrite lookup_insert_ne.
Qed.

Lemma lookup_foldl_addCount (l : list (string * Z)) :
  NoDup (l.*1) → ∀ (counts : gmap string Z) (k : string),
  foldl MapBased.addCount counts l !! k =
    match (list_to_map l : gmap string Z) !! k with
    | Some val =>
        Some (match counts !! k with
              | Some count => int_add count val
              | None => val
              end)
    | None => counts !! k
    end.
Proof.
  induction l as [|[key val] l IH]; intros Hnd counts k.
  - simpl. by rewrite lookup_empty.
  - apply NoDup_cons in Hnd as [Hkey Hnd].
    change (foldl MapBased.addCount counts ((key, val) :: l))
      with (foldl MapBased.addCount (MapBased.addCount counts (key, val)) l).
    rewrite (IH Hnd), lookup_addCount, list_to_map_cons.
    destruct (decide (key = k)) as [->|Hne].
    + rewrite lookup_insert_eq.
      by rewrite (not_elem_of_list_to_map_1 l k Hkey).
    + by rewrite lookup_insert_ne.
Qed.

(** What [updateCounts] leaves under every key. *)
Lemma lookup_updateCounts (metaCounts counts : gmap string Z) (k : string) :
  MapBased.updateCounts metaCounts counts !! k =
    match metaCounts !! k with
    | Some val =>
        Some (match counts !! k with
              | Some count => int_add count val
              | None => val
              end)
    | None => counts !! k
    end.
Proof.
  unfold MapBased.updateCounts.
  rewrite lookup_foldl_addCount by apply map_range_NoDup.
  by rewrite list_to_map_map_range.
Qed.

Lemma updateCounts_empty_l (counts : gmap string Z) :
  MapBased.updateCounts ∅ counts = counts.
Proof. apply map_eq. intros k. by rewrite lookup_updateCounts, lookup_empty. Qed.

Lemma updateCounts_empty_r (metaCounts : gmap string Z) :
  MapBased.updateCounts metaCounts ∅ = metaCounts.
Proof.
  apply map_eq. intros k. rewrite lookup_updateCounts, lookup_empty.
  by destruct (metaCounts !! k).
Qed.

Lemma updateCounts_swap (counts m1 m2 : gmap string Z) :
  MapBased.updateCounts m2 (MapBased.updateCounts m1 counts) =
  MapBased.updateCounts m1 (MapBased.updateCounts m2 counts).
Proof.
  apply map_eq. intros k. rewrite !lookup_updateCounts.
  destruct (m1 !! k), (m2 !! k), (counts !! k); try done; f_equal.
  - apply int_add_swap.
  - apply int_add_comm.
Qed.

Lemma updateCounts_comm (m1 m2 : gmap string Z) :
  MapBased.updateCounts m2 m1 = MapBased.updateCounts m1 m2.
Proof.
  apply map_eq. intros k. rewrite !lookup_updateCounts.
  destruct (m1 !! k), (m2 !! k); try done. f_equal. apply int_add_comm.
Qed.

Lemma updateCounts_assoc (m1 m2 m3 : gmap string Z) :
  MapBased.updateCounts m3 (MapBased.updateCounts m2 m1) =
  MapBased.updateCounts (MapBased.updateCounts m3 m2) m1.
Proof.
  apply map_eq. intros k. rewrite !lookup_updateCounts.
  destruct (m1 !! k), (m2 !! k), (m3 !! k); try done. f_equal.
  apply int_add_assoc.
Qed.

End MapMerge.

(** ** The trace monad *)

Lemma trace_bind {A B : Type} (m : IO A) (k : A → IO B) :
  trace (m ≫= k) = trace m ++ trace (k (value m)).
Proof.
  destruct m as [t a]. unfold trace, value, mbind, IO_bind. simpl.
  by destruct (k a).
Qed.

Lemma value_bind {A B : Type} (m : IO A) (k : A → IO B) :
  value (m ≫= k) = value (k (value m)).
Proof.
  destruct m as [t a]. unfold trace, value, mbind, IO_bind. simpl.
  by destruct (k a).
Qed.

Lemma trace_ret {A : Type} (a : A) : trace (mret a : IO A) = [].
Proof. done. Qed.

Lemma value_ret {A : Type} (a : A) : value (mret a : IO A) = a.
Proof. done. Qed.

Lemma trace_emit (e : Event) : trace (emit e) = [e].
Proof. done. Qed.

Lemma tables_app (t1 t2 : list Event) :
  tables (t1 ++ t2) = tables t1 ++ tables t2.
Proof. apply omap_app. Qed.

Lemma requests_app (t1 t2 : list Event) :
  requests (t1 ++ t2) = requests t1 ++ requests t2.
Proof. apply omap_app. Qed.

(** ** The merge of the reflective variant *)

Section ReflectiveMerge.
Import Reflective ReflectiveSpec.

(** The reflective walk of a [Metadata] never panics and adds the five
    counts in declaration order. *)
Lemma updateCounts_Metadata (m : Metadata) (counts : gmap string Z) :
  updateCounts (reflect_Metadata m) counts = Some (addMetadata counts m).
Proof.
  destruct m as [[p t s r u]].
  unfold addMetadata, countFields, bump. simpl.
  repeat case_decide; reflexivity.
Qed.

Lemma index_bump (counts : gmap string Z) (field : string * Z) (k : string) :
  index (bump counts field) k =
    if decide (field.1 = k ∧ field.2 ≠ 0) then int_add (index counts k) field.2
    else index counts k.
Proof.
  unfold bump, index. destruct field as [name n]; simpl.
  destruct (decide (name = k ∧ n ≠ 0)) as [[-> Hn]|Hno].
  - rewrite decide_True by done. by rewrite lookup_insert_eq.
  - destruct (decide (n ≠ 0)); [|done].
    rewrite lookup_insert_ne; [done|]. intros ->. by apply Hno.
Qed.

Lemma lookup_bump (counts : gmap string Z) (field : string * Z) (k : string) :
  bump counts field !! k =
    if decide (field.1 = k ∧ field.2 ≠ 0)
    then Some (int_add (index counts k) field.2)
    else counts !! k.
Proof.
  unfold bump. destruct field as [name n]; simpl.
  destruct (decide (name = k ∧ n ≠ 0)) as [[-> Hn]|Hno].
  - rewrite decide_True by done. by rewrite lookup_insert_eq.
  - destruct (decide (n ≠ 0)); [|done].
    rewrite lookup_insert_ne; [done|]. intros ->. by apply Hno.
Qed.

Lemma bump_swap (counts : gmap string Z) (f1 f2 : string * Z) :
  bump (bump counts f1) f2 = bump (bump counts f2) f1.
Proof.
  apply map_eq. intros k. rewrite !lookup_bump, !index_bump.
  repeat case_decide; try done. f_equal. apply int_add_swap.
Qed.

Lemma addMetadata_swap (counts : gmap string Z) (m1 m2 : Metadata) :
  addMetadata (addMetadata counts m1) m2 =
  addMetadata (addMetadata counts m2) m1.
Proof.
  unfold addMetadata. rewrite <- !foldl_app.
  apply (foldl_swap_perm bump bump_swap). apply Permutation_app_comm.
Qed.

Lemma is_Some_bump (counts : gmap string Z) (field : string * Z) (k : string) :
  is_Some (bump counts field !! k) ↔
  is_Some (counts !! k) ∨ (field.1 = k ∧ field.2 ≠ 0).
Proof.
  rewrite lookup_bump. destruct (decide _) as [Hk|Hk].
  - split; [by right|by eauto].
  - split; [by left|]. by intros [?|?].
Qed.

Lemma is_Some_foldl_bump (l : list (string * Z)) (counts : gmap string Z)
    (k : string) :
  is_Some (foldl bump counts l !! k) ↔
  is_Some (counts !! k) ∨ ∃ n, (k, n) ∈ l ∧ n ≠ 0.
Proof.
  revert counts. induction l as [|[name n] l IH]; intros counts; simpl.
  - split; [by left|]. intros [?|(n & Hn & _)]; [done|]. by inversion Hn.
  - rewrite IH, is_Some_bump. simpl. split.
    + intros [[?|[-> ?]]|(n' & ? & ?)]; [by left|right..].
      * exists n. split; [left|done].
      * exists n'. split; [by right|done].
    + intros [?|(n' & Hin & ?)]; [by left; left|].
      apply elem_of_cons in Hin as [[= -> ->]|?]; [by left; right|].
      right. by exists n'.
Qed.

Lemma is_Some_aggregate (l : list WorkspaceMetadata) (k : string)
    (counts : gmap string Z) :
  is_Some (foldl addMetadata counts (Meta <$> l) !! k) ↔
  is_Some (counts !! k)
  ∨ ∃ wm n, wm ∈ l ∧ (k, n) ∈ countFields (Meta wm) ∧ n ≠ 0.
Proof.
  revert counts. induction l as [|wm l IH]; intros counts.
  - simpl. split; [by left|]. intros [?|(wm & n & Hwm & _)]; [done|].
    by inversion Hwm.
  - change (foldl addMetadata counts (Meta <$> wm :: l))
      with (foldl addMetadata (addMetadata counts (Meta wm)) (Meta <$> l)).
    rewrite IH. unfold addMetadata at 1. rewrite is_Some_foldl_bump. split.
    + intros [[?|(n & ? & ?)]|(wm' & n & ? & ? & ?)]; [by left|right..].
      * exists wm, n. split; [left|done].
      * exists wm', n. split; [by right|done].
    + intros [?|(wm' & n & Hin & ? & ?)]; [by left; left|].
      apply elem_of_cons in Hin as [->|?]; [left; right; by exists n|].
      right. by exists wm', n.
Qed.

Lemma lookup_foldl_bump_zero (l : list (string * Z)) (counts : gmap string Z)
    (name : string) :
  (∀ n, (name, n) ∈ l → n = 0) →
  foldl bump counts l !! name = counts !! name.
Proof.
  revert counts. induction l as [|[name' n'] l IH]; intros counts Hzero; [done|].
  simpl. rewrite IH.
  - rewrite lookup_bump. destruct (decide _) as [[Hname Hne]|]; [|done].
    simpl in *. subst name'. destruct Hne. apply Hzero. left.
  - intros n Hn. apply Hzero. by right.
Qed.

Lemma countFields_NoDup (m : Metadata) : NoDup (countFields m).*1.
Proof. by apply (bool_decide_unpack _). Qed.

Lemma countFields_unique (m : Metadata) (name : string) (n1 n2 : Z) :
  (name, n1) ∈ countFields m → (name, n2) ∈ countFields m → n1 = n2.
Proof.
  intros H1 H2.
  apply (elem_of_list_to_map_1 (M := gmap string)) in H1, H2;
    try apply countFields_NoDup.
  congruence.
Qed.

End ReflectiveMerge.

(** ** The pipeline of the map-based variant *)

Section MapPipeline.
Import MapBased MapBasedSpec.
Context `{!GoRuntime, !Unmarshal WorkspaceResponse, !Unmarshal Metadata}.
Context (w : World).

Lemma getWorkspaces_trace (url : string) :
  trace (getWorkspaces w url) = [HttpGet url].
Proof.
  unfold getWorkspaces. rewrite trace_bind, trace_emit.
  destruct (http_Get w url) as [resp|e]; [|done].
  destruct (ReadAll resp) as [body|e]; [|done].
  by destruct (json_Unmarshal body).
Qed.

(** The three ways [getWorkspaces] fails, and the one way it succeeds. *)
Lemma getWorkspaces_value (url : string) :
  value (getWorkspaces w url) =
    match http_Get w url with
    | Err e => Err e
    | Ok resp =>
        match ReadAll resp with
        | Err e => Err e
        | Ok body =>
            match json_Unmarshal body with
            | Err e => Err e
            | Ok response => Ok (Data response)
            end
        end
    end.
Proof.
  unfold getWorkspaces. rewrite value_bind.
  destruct (http_Get w url) as [resp|e]; [|done].
  destruct (ReadAll resp) as [body|e]; [|done].
  by destruct (json_Unmarshal body).
Qed.

Lemma getMetadata_tables (url headers : string) :
  tables (trace (getMetadata w url headers)) = [].
Proof.
  unfold getMetadata. destruct (NewRequest "GET" url) as [req|e]; [|done].
  rewrite trace_bind, trace_emit.
  destruct (client_Do w _) as [resp|e]; [|done].
  destruct (ReadAll resp) as [body|e]; [|done].
  by destruct (json_Unmarshal body).
Qed.

Lemma getMetadata_requests (url headers : string) (req : Request) :
  req ∈ requests (trace (getMetadata w url headers)) →
  req = addHeaders (mkRequest "GET" url ∅) headers.
Proof.
  unfold getMetadata, NewRequest.
  destruct (url_Parse_error url) as [e|]; [by inversion 1|].
  rewrite trace_bind, trace_emit.
  destruct (client_Do w _) as [resp|e]; simpl.
  - destruct (ReadAll resp) as [body|e]; simpl.
    + destruct (json_Unmarshal body); simpl; by intros ->%list_elem_of_singleton.
    + by intros ->%list_elem_of_singleton.
  - by intros ->%list_elem_of_singleton.
Qed.

Lemma fetched_cons (urlPtr headersPtr : string) (workspace : Workspace)
    (rest : list Workspace) :
  fetched w urlPtr headersPtr (workspace :: rest) =
    match fetchOne w urlPtr headersPtr workspace with
    | Some workspaceMetadata =>
        workspaceMetadata :: fetched w urlPtr headersPtr rest
    | None => fetched w urlPtr headersPtr rest
    end.
Proof. done. Qed.

Lemma fetchAll_value (urlPtr headersPtr : string) (workspaces : list Workspace) :
  ∀ counts workspaceMetadataList,
  value (fetchAll w urlPtr headersPtr workspaces counts workspaceMetadataList) =
    (foldl (λ counts m, updateCounts m counts) counts
       ((Counts ∘ Meta) <$> fetched w urlPtr headersPtr workspaces),
     workspaceMetadataList ++ fetched w urlPtr headersPtr workspaces).
Proof.
  induction workspaces as [|workspace rest IH]; intros counts wml.
  - simpl. by rewrite app_nil_r.
  - rewrite fetched_cons. unfold fetchOne.
    cbn [fetchAll]. rewrite value_bind.
    destruct (value (getMetadata w _ headersPtr)) as [meta|e].
    + rewrite IH. cbn. by rewrite <- app_assoc.
    + rewrite value_bind. apply IH.
Qed.

Lemma fetchAll_tables (urlPtr headersPtr : string) (workspaces : list Workspace) :
  ∀ counts workspaceMetadataList,
  tables (trace (fetchAll w urlPtr headersPtr workspaces counts
                   workspaceMetadataList)) = [].
Proof.
  induction workspaces as [|workspace rest IH]; intros counts wml; [done|].
  cbn [fetchAll]. rewrite trace_bind, tables_app, getMetadata_tables.
  destruct (value (getMetadata w _ headersPtr)) as [meta|e].
  - apply IH.
  - rewrite trace_bind, tables_app. apply IH.
Qed.

Lemma fetchAll_requests (urlPtr headersPtr : string)
    (workspaces : list Workspace) (req : Request) :
  ∀ counts workspaceMetadataList,
  req ∈ requests (trace (fetchAll w urlPtr headersPtr workspaces counts
                           workspaceMetadataList)) →
  ReqHeader req = ReqHeader (addHeaders (mkRequest "GET" "" ∅) headersPtr).
Proof.
  assert (Hone : ∀ url, ReqHeader (addHeaders (mkRequest "GET" url ∅) headersPtr)
            = ReqHeader (addHeaders (mkRequest "GET" "" ∅) headersPtr)).
  { intros url. unfold addHeaders. case_decide; [|done].
    by destruct (Split headersPtr ":") as [|? [|? [|? ?]]]. }
  induction workspaces as [|workspace rest IH]; intros counts wml.
  - by inversion 1.
  - cbn [fetchAll]. rewrite trace_bind, requests_app.
    intros [Hin|Hin]%elem_of_app.
    + apply getMetadata_requests in Hin as ->. apply Hone.
    + destruct (value (getMetadata w _ headersPtr)) as [meta|e].
      * by apply IH in Hin.
      * rewrite trace_bind, requests_app in Hin. simpl in Hin.
        by apply IH in Hin.
Qed.

(** The tables [main] renders once the workspace list is there. *)
Lemma main_tables (args : Flags) (workspaces : list Workspace) :
  value (getWorkspaces w (kongAddr w args +:+ "/workspaces")) = Ok workspaces →
  let rows := fetched w (kongAddr w args) (flag_headers args) workspaces in
  tables (trace (main w args)) =
    (if decide (flag_meta args = "workspace" ∨ flag_meta args = "all") then
       [(["Workspace Name"; "Plugins"; "Targets"; "Services"; "Routes";
          "Upstreams"], workspaceRow <$> rows)]
     else [])
    ++
    (if decide (flag_meta args = "counts" ∨ flag_meta args = "all") then
       [(["Meta Field"; "Count"],
         countRow <$> countsTableRows (aggregate rows)
                        (Z.of_nat (length rows)))]
     else []).
Proof.
  intros Hws rows. unfold main.
  rewrite trace_bind, tables_app, getWorkspaces_trace, Hws.
  rewrite trace_bind, tables_app, fetchAll_tables.
  pose proof (fetchAll_value (kongAddr w args) (flag_headers args)
                workspaces ∅ []) as Hval.
  destruct (value (fetchAll w _ _ workspaces ∅ [])) as [counts wml].
  simpl in Hval. injection Hval as -> ->. fold rows.
  rewrite trace_bind, tables_app. simpl.
  f_equal; by case_decide.
Qed.

End MapPipeline.

(** ** The pipeline of the reflective variant *)

Section ReflectivePipeline.
Import Reflective ReflectiveSpec.
Context `{!GoRuntime, !Unmarshal WorkspaceResponse, !Unmarshal Metadata}.
Context (w : World).

Lemma getWorkspacesR_trace (url : string) :
  trace (getWorkspaces w url) = [HttpGet url].
Proof.
  unfold getWorkspaces. rewrite trace_bind, trace_emit.
  destruct (http_Get w url) as [resp|e]; [|done].
  destruct (ReadAll resp) as [body|e]; [|done].
  by destruct (json_Unmarshal body).
Qed.

Lemma getWorkspacesR_value (url : string) :
  value (getWorkspaces w url) =
    match http_Get w url with
    | Err e => Err e
    | Ok resp =>
        match ReadAll resp with
        | Err e => Err e
        | Ok body =>
            match json_Unmarshal body with
            | Err e => Err e
            | Ok response => Ok (Data response)
            end
        end
    end.
Proof.
  unfold getWorkspaces. rewrite value_bind.
  destruct (http_Get w url) as [resp|e]; [|done].
  destruct (ReadAll resp) as [body|e]; [|done].
  by destruct (json_Unmarshal body).
Qed.

Lemma getMetadataR_tables (url : string) (headers : Header) :
  tables (trace (getMetadata w url headers)) = [].
Proof.
  unfold getMetadata. destruct (NewRequest "GET" url) as [req|e]; [|done].
  rewrite trace_bind, trace_emit.
  destruct (client_Do w _) as [resp|e]; [|done].
  destruct (ReadAll resp) as [body|e]; [|done].
  by destruct (json_Unmarshal body).
Qed.

Lemma getMetadataR_requests (url : string) (headers : Header) (req : Request) :
  req ∈ requests (trace (getMetadata w url headers)) →
  req = mkRequest "GET" url headers.
Proof.
  unfold getMetadata, NewRequest.
  destruct (url_Parse_error url) as [e|]; [by inversion 1|].
  rewrite trace_bind, trace_emit.
  destruct (client_Do w _) as [resp|e]; simpl.
  - destruct (ReadAll resp) as [body|e]; simpl.
    + destruct (json_Unmarshal body); simpl; by intros ->%list_elem_of_singleton.
    + by intros ->%list_elem_of_singleton.
  - by intros ->%list_elem_of_singleton.
Qed.

Lemma fetchedR_cons (urlPtr : string) (headers : Header)
    (workspace : Workspace) (rest : list Workspace) :
  fetched w urlPtr headers (workspace :: rest) =
    match fetchOne w urlPtr headers workspace with
    | Some workspaceMetadata =>
        workspaceMetadata :: fetched w urlPtr headers rest
    | None => fetched w urlPtr headers rest
    end.
Proof. done. Qed.

(** The loop never panics; it ends with the sum of the fetched counts and
    the fetched workspaces. *)
Lemma fetchAllR_value (urlPtr : string) (headers : Header)
    (workspaces : list Workspace) :
  ∀ counts workspaceMetadataList,
  value (fetchAll w urlPtr headers workspaces counts workspaceMetadataList) =
    Some (foldl addMetadata counts
            (Meta <$> fetched w urlPtr headers workspaces),
          workspaceMetadataList ++ fetched w urlPtr headers workspaces).
Proof.
  induction workspaces as [|workspace rest IH]; intros counts wml.
  - simpl. by rewrite app_nil_r.
  - rewrite fetchedR_cons. unfold fetchOne.
    cbn [fetchAll]. rewrite value_bind.
    destruct (value (getMetadata w _ headers)) as [meta|e].
    + rewrite updateCounts_Metadata, IH. cbn. by rewrite <- app_assoc.
    + rewrite value_bind. apply IH.
Qed.

Lemma fetchAllR_tables (urlPtr : string) (headers : Header)
    (workspaces : list Workspace) :
  ∀ counts workspaceMetadataList,
  tables (trace (fetchAll w urlPtr headers workspaces counts
                   workspaceMetadataList)) = [].
Proof.
  induction workspaces as [|workspace rest IH]; intros counts wml; [done|].
  cbn [fetchAll]. rewrite trace_bind, tables_app, getMetadataR_tables.
  destruct (value (getMetadata w _ headers)) as [meta|e].
  - rewrite updateCounts_Metadata. apply IH.
  - rewrite trace_bind, tables_app. apply IH.
Qed.

Lemma fetchAllR_requests (urlPtr : string) (headers : Header)
    (workspaces : list Workspace) (req : Request) :
  ∀ counts workspaceMetadataList,
  req ∈ requests (trace (fetchAll w urlPtr headers workspaces counts
                           workspaceMetadataList)) →
  ReqHeader req = headers.
Proof.
  induction workspaces as [|workspace rest IH]; intros counts wml.
  - by inversion 1.
  - cbn [fetchAll]. rewrite trace_bind, requests_app.
    intros [Hin|Hin]%elem_of_app.
    + by apply getMetadataR_requests in Hin as ->.
    + destruct (value (getMetadata w _ headers)) as [meta|e].
      * rewrite updateCounts_Metadata in Hin. by apply IH in Hin.
      * rewrite trace_bind, requests_app in Hin. simpl in Hin.
        by apply IH in Hin.
Qed.

(** The tables [main] renders once the workspace list is there. *)
Lemma mainR_tables (args : Flags) (workspaces : list Workspace) :
  value (getWorkspaces w (kongAddr w args +:+ "/workspaces")) = Ok workspaces →
  let rows :=
    fetched w (kongAddr w args) (getHeaders w (flag_headers args))
      workspaces in
  tables (trace (main w args)) =
    [(["Workspace"; "Plugins"; "Targets"; "Services"; "Routes"; "Upstreams"],
      workspaceRow <$> rows);
     (["Meta Field"; "Count"],
      countRow <$> countsTableRows (aggregate rows)
                     (Z.of_nat (length workspaces)))].
Proof.
  intros Hws rows. unfold main.
  rewrite trace_bind, tables_app, getWorkspacesR_trace, Hws.
  rewrite trace_bind, tables_app, fetchAllR_tables.
  rewrite fetchAllR_value. fold rows. by simpl.
Qed.

End ReflectivePipeline.

(** ** Count aggregation *)

(** C4.  After [updateCounts from into] (the spec's [merge(into, from)]),
    every key [k] of [from] holds [from[k]] added to the value [into] had
    at [k], zero when [into] had none; the addition is Go's on [int], and
    is the exact sum whenever that sum fits in an [int].  Every key that
    [from] does not have keeps what [into] had. *)
Theorem merge_adds_per_key `{!GoRuntime} (into from : gmap string Z)
    (k : string) :
  (∀ v, from !! k = Some v → is_int v →
     MapBased.updateCounts from into !! k
       = Some (int_add (MapBased.index into k) v)
     ∧ (is_int (MapBased.index into k + v) →
        MapBased.updateCounts from into !! k
          = Some (MapBased.index into k + v)))
  ∧ (from !! k = None →
     MapBased.updateCounts from into !! k = into !! k).
Proof.
  split.
  - intros v Hv Hint.
    assert (Hadd : MapBased.updateCounts from into !! k
                   = Some (int_add (MapBased.index into k) v)).
    { rewrite lookup_updateCounts, Hv. unfold MapBased.index.
      destruct (into !! k) as [count|]; simpl; [done|].
      unfold int_add. by rewrite Z.add_0_l, int_wrap_id. }
    split; [exact Hadd|]. intros Hsum. by rewrite Hadd, int_add_exact.
  - intros Hk. by rewrite lookup_updateCounts, Hk.
Qed.

Section MergeWitness.
Import Demo.

Lemma merge_adds_per_key_witness :
  MapBased.updateCounts {["plugins" := 3]} {["plugins" := 2]} !! "plugins"
    = Some 5
  ∧ MapBased.updateCounts {["plugins" := 3]} {["routes" := 1]} !! "plugins"
    = Some 3
  ∧ MapBased.updateCounts {["plugins" := 3]} {["routes" := 1]} !! "routes"
    = Some 1.
Proof.
  assert (Hint : is_int 3) by (unfold is_int, int_min, int_max; lia).
  split; [|split].
  - destruct (merge_adds_per_key {["plugins" := 2]} {["plugins" := 3]}
                "plugins") as [Hadd _].
    destruct (Hadd 3 eq_refl Hint) as [_ Hsum]. apply Hsum.
    unfold is_int, int_min, int_max. vm_compute. split; discriminate.
  - destruct (merge_adds_per_key {["routes" := 1]} {["plugins" := 3]}
                "plugins") as [Hadd _].
    destruct (Hadd 3 eq_refl Hint) as [_ Hsum]. apply Hsum.
    unfold is_int, int_min, int_max. vm_compute. split; discriminate.
  - destruct (merge_adds_per_key {["routes" := 1]} {["plugins" := 3]}
                "routes") as [_ Hkeep].
    apply Hkeep. reflexivity.
Defined.

End MergeWitness.

Lemma foldl_updateCounts_reflective (ms : list Reflective.Metadata)
    (counts : gmap string Z) :
  foldl (λ acc m, acc ≫= Reflective.updateCounts (Reflective.reflect_Metadata m))
    (Some counts) ms
  = Some (foldl ReflectiveSpec.addMetadata counts ms).
Proof.
  revert counts. induction ms as [|m ms IH]; intros counts; [done|].
  cbn [foldl mbind option_bind]. rewrite updateCounts_Metadata. apply IH.
Qed.

(** C3.  The merge is commutative and associative, and the sum of the
    counts of any collection of workspaces, folded into an empty map, does
    not depend on the order in which the workspaces are taken; the latter
    holds for the map-based and for the reflective [updateCounts]. *)
Theorem merge_order_independent `{!GoRuntime} :
  (∀ m1 m2 : gmap string Z,
     MapBased.updateCounts m2 m1 = MapBased.updateCounts m1 m2)
  ∧ (∀ m1 m2 m3 : gmap string Z,
       MapBased.updateCounts m3 (MapBased.updateCounts m2 m1)
       = MapBased.updateCounts (MapBased.updateCounts m3 m2) m1)
  ∧ (∀ ms1 ms2 : list (gmap string Z), ms1 ≡ₚ ms2 →
       foldl (λ counts m, MapBased.updateCounts m counts) ∅ ms1
       = foldl (λ counts m, MapBased.updateCounts m counts) ∅ ms2)
  ∧ (∀ ms1 ms2 : list Reflective.Metadata, ms1 ≡ₚ ms2 →
       foldl (λ acc m,
                acc ≫= Reflective.updateCounts (Reflective.reflect_Metadata m))
         (Some ∅) ms1
       = foldl (λ acc m,
                  acc ≫= Reflective.updateCounts (Reflective.reflect_Metadata m))
           (Some ∅) ms2).
Proof.
  split; [|split; [|split]].
  - apply updateCounts_comm.
  - apply updateCounts_assoc.
  - intros ms1 ms2 Hperm.
    apply (foldl_swap_perm (λ counts m, MapBased.updateCounts m counts));
      [|done].
    intros counts m1 m2. apply updateCounts_swap.
  - intros ms1 ms2 Hperm. rewrite !foldl_updateCounts_reflective. f_equal.
    apply (foldl_swap_perm ReflectiveSpec.addMetadata); [|done].
    apply addMetadata_swap.
Qed.

Section OrderWitness.
Import Demo.

Lemma merge_order_independent_witness :
  foldl (λ counts m, MapBased.updateCounts m counts) ∅
    [{["plugins" := 2]}; <["routes" := 1]> {["plugins" := 3]}]
  = foldl (λ counts m, MapBased.updateCounts m counts) ∅
      [<["routes" := 1]> {["plugins" := 3]}; {["plugins" := 2]}]
  ∧ foldl (λ acc m,
             acc ≫= Reflective.updateCounts (Reflective.reflect_Metadata m))
      (Some ∅)
      [Reflective.mkMetadata (Reflective.mkCounts 2 0 0 0 0);
       Reflective.mkMetadata (Reflective.mkCounts 3 0 0 1 0)]
    = foldl (λ acc m,
               acc ≫= Reflective.updateCounts (Reflective.reflect_Metadata m))
        (Some ∅)
        [Reflective.mkMetadata (Reflective.mkCounts 3 0 0 1 0);
         Reflective.mkMetadata (Reflective.mkCounts 2 0 0 0 0)].
Proof.
  split.
  - apply (proj1 (proj2 (proj2 merge_order_independent))).
    apply perm_swap.
  - apply (proj2 (proj2 (proj2 merge_order_independent))).
    apply perm_swap.
Defined.

End OrderWitness.

(** C7.  In the reflective variant a field whose value is 0 adds no key:
    one call of [updateCounts] on a [Metadata] never panics and leaves the
    entry of every zero-valued field as it was, and after the whole loop of
    [main] a name is a key of the aggregate exactly when some fetched
    workspace has a non-zero field of that name. *)
Theorem zero_fields_excluded
    `{!GoRuntime, !Unmarshal Reflective.Metadata} (w : World)
    (urlPtr : string) (headers : Header)
    (workspaces : list Reflective.Workspace) :
  (∀ (m : Reflective.Metadata) (counts : gmap string Z), ∃ counts',
     Reflective.updateCounts (Reflective.reflect_Metadata m) counts
       = Some counts'
     ∧ ∀ name, (name, 0) ∈ ReflectiveSpec.countFields m →
         counts' !! name = counts !! name)
  ∧ ∃ counts workspaceMetadataList,
      value (Reflective.fetchAll w urlPtr headers workspaces ∅ [])
        = Some (counts, workspaceMetadataList)
      ∧ ∀ name,
          is_Some (counts !! name) ↔
          ∃ workspaceMetadata n,
            workspaceMetadata ∈ workspaceMetadataList
            ∧ (name, n) ∈ ReflectiveSpec.countFields
                             (Reflective.Meta workspaceMetadata)
            ∧ n ≠ 0.
Proof.
  split.
  - intros m counts. eexists. split; [apply updateCounts_Metadata|].
    intros name Hzero. apply lookup_foldl_bump_zero.
    intros n Hn. apply (countFields_unique m name); done.
  - eexists _, _. split.
    + apply fetchAllR_value.
    + intros name. rewrite app_nil_l, is_Some_aggregate, lookup_empty.
      split; [|by right]. intros [[? [=]]|?]; done.
Qed.

Section ZeroWitness.
Import Demo.

Lemma zero_fields_excluded_witness :
  ∃ counts',
    Reflective.updateCounts
      (Reflective.reflect_Metadata
         (Reflective.mkMetadata (Reflective.mkCounts 2 0 0 0 0))) ∅
      = Some counts'
    ∧ counts' !! "Targets" = None.
Proof.
  destruct (zero_fields_excluded (world noEnv true) "" ∅ []) as [Hone _].
  destruct (Hone (Reflective.mkMetadata (Reflective.mkCounts 2 0 0 0 0)) ∅)
    as (counts' & Hcounts & Hzero).
  exists counts'. split; [exact Hcounts|].
  rewrite (Hzero "Targets"); [reflexivity|].
  apply list_elem_of_further, list_elem_of_here.
Defined.

End ZeroWitness.

(** ** Splitting the header flag *)

Lemma Split_cons (c : ascii) (s : string) (sep : ascii) :
  Split (String c s) sep =
    if decide (c = sep) then "" :: Split s sep
    else match Split s sep with
         | [] => [String c ""]
         | part :: parts => String c part :: parts
         end.
Proof. done. Qed.

Lemma Split_length (s : string) (sep : ascii) :
  length (Split s sep) = S (occurrences sep s).
Proof.
  induction s as [|c s IH]; [done|]. simpl.
  destruct (decide (c = sep)); simpl; [by rewrite IH|].
  destruct (Split s sep); simpl in *; [done|]. by rewrite <- IH.
Qed.

Lemma Split_none (s : string) (sep : ascii) :
  occurrences sep s = 0%nat → Split s sep = [s].
Proof.
  induction s as [|c s IH]; [done|]. simpl.
  destruct (decide (c = sep)); [done|]. intros Hs. by rewrite (IH Hs).
Qed.

Lemma Split_one (s : string) (sep : ascii) :
  occurrences sep s = 1%nat →
  ∃ k v, s = k +:+ String sep v ∧ Split s sep = [k; v].
Proof.
  induction s as [|c s IH]; [done|]. simpl.
  destruct (decide (c = sep)) as [->|Hc].
  - intros [= Hs]. exists "", s. by rewrite (Split_none s sep Hs).
  - intros Hs. destruct (IH Hs) as (k & v & -> & Hsplit).
    exists (String c k), v. by rewrite Hsplit.
Qed.

Lemma Split_join (k v : string) (sep : ascii) :
  occurrences sep k = 0%nat → occurrences sep v = 0%nat →
  Split (k +:+ String sep v) sep = [k; v].
Proof.
  intros Hk Hv. induction k as [|c k IH].
  - change ("" +:+ String sep v) with (String sep v).
    rewrite Split_cons, decide_True by done.
    by rewrite (Split_none v sep Hv).
  - change (String c k +:+ String sep v) with (String c (k +:+ String sep v)).
    rewrite Split_cons. simpl in Hk.
    destruct (decide (c = sep)); [done|]. by rewrite (IH Hk).
Qed.

Lemma Split_not_two (s : string) (sep : ascii) :
  occurrences sep s ≠ 1%nat → length (Split s sep) ≠ 2%nat.
Proof. rewrite Split_length. lia. Qed.

(** ** The whole trace of [main] *)

Section MapMain.
Import MapBased MapBasedSpec.
Context `{!GoRuntime, !Unmarshal WorkspaceResponse, !Unmarshal Metadata}.
Context (w : World).

Lemma main_trace (args : Flags) :
  trace (main w args) =
    HttpGet (kongAddr w args +:+ "/workspaces") ::
    match value (getWorkspaces w (kongAddr w args +:+ "/workspaces")) with
    | Err e => [Println ("Error getting workspaces: " +:+ e)]
    | Ok workspaces =>
        let rows := fetched w (kongAddr w args) (flag_headers args)
                      workspaces in
        trace (fetchAll w (kongAddr w args) (flag_headers args)
                 workspaces ∅ [])
        ++ (if decide (flag_meta args = "workspace" ∨ flag_meta args = "all")
            then [Println "Individual Workspace Metadata:";
                  Render ["Workspace Name"; "Plugins"; "Targets"; "Services";
                          "Routes"; "Upstreams"] (workspaceRow <$> rows)]
            else [])
        ++ (if decide (flag_meta args = "counts" ∨ flag_meta args = "all")
            then [Println "Total Meta Field Counts:";
                  Render ["Meta Field"; "Count"]
                    (countRow <$> countsTableRows (aggregate rows)
                                    (Z.of_nat (length rows)))]
            else [])
    end.
Proof.
  unfold main. rewrite trace_bind, getWorkspaces_trace. simpl. f_equal.
  destruct (value (getWorkspaces w _)) as [workspaces|e]; [|done].
  rewrite trace_bind. f_equal.
  pose proof (fetchAll_value w (kongAddr w args) (flag_headers args)
                workspaces ∅ []) as Hval.
  destruct (value (fetchAll w _ _ workspaces ∅ [])) as [counts wml].
  simpl in Hval. injection Hval as -> ->.
  rewrite trace_bind. f_equal; by case_decide.
Qed.

Lemma main_requests (args : Flags) (req : Request) :
  req ∈ requests (trace (main w args)) →
  ReqHeader req =
    ReqHeader (addHeaders (mkRequest "GET" "" ∅) (flag_headers args)).
Proof.
  rewrite main_trace. simpl.
  destruct (value (getWorkspaces w _)) as [workspaces|e]; [|by inversion 1].
  simpl. rewrite !requests_app.
  intros [Hin|[Hin|Hin]%elem_of_app]%elem_of_app.
  - by apply fetchAll_requests in Hin.
  - case_decide; by inversion Hin.
  - case_decide; by inversion Hin.
Qed.

End MapMain.

Section ReflectiveMain.
Import Reflective ReflectiveSpec.
Context `{!GoRuntime, !Unmarshal WorkspaceResponse, !Unmarshal Metadata}.
Context (w : World).

Lemma mainR_trace (args : Flags) :
  trace (main w args) =
    HttpGet (kongAddr w args +:+ "/workspaces") ::
    match value (getWorkspaces w (kongAddr w args +:+ "/workspaces")) with
    | Err e => [Println ("Error getting workspaces: " +:+ e)]
    | Ok workspaces =>
        let rows := fetched w (kongAddr w args)
                      (getHeaders w (flag_headers args)) workspaces in
        trace (fetchAll w (kongAddr w args)
                 (getHeaders w (flag_headers args)) workspaces ∅ [])
        ++ [Println "Individual Workspace Metadata:";
            Render ["Workspace"; "Plugins"; "Targets"; "Services"; "Routes";
                    "Upstreams"] (workspaceRow <$> rows);
            Println "Total Entity Counts:";
            Render ["Meta Field"; "Count"]
              (countRow <$> countsTableRows (aggregate rows)
                              (Z.of_nat (length workspaces)))]
    end.
Proof.
  unfold main. rewrite trace_bind, getWorkspacesR_trace. simpl. f_equal.
  destruct (value (getWorkspaces w _)) as [workspaces|e]; [|done].
  rewrite trace_bind. f_equal. by rewrite fetchAllR_value.
Qed.

Lemma mainR_requests (args : Flags) (req : Request) :
  req ∈ requests (trace (main w args)) →
  ReqHeader req = getHeaders w (flag_headers args).
Proof.
  rewrite mainR_trace. simpl.
  destruct (value (getWorkspaces w _)) as [workspaces|e]; [|by inversion 1].
  simpl. rewrite !requests_app.
  intros [Hin|Hin]%elem_of_app.
  - by apply fetchAllR_requests in Hin.
  - by inversion Hin.
Qed.

End ReflectiveMain.

(** ** Configuration *)

(** C5.  In both variants the admin base URL is the [--kong-addr] flag when
    it is not empty, else [KONG_ADMIN_ADDR] when that is not empty, else
    [http://localhost:8001]; and it is the address [main] asks for the
    workspace list. *)
Theorem kong_addr_precedence
    `{!GoRuntime}
    `{!Unmarshal MapBased.WorkspaceResponse, !Unmarshal MapBased.Metadata}
    `{!Unmarshal Reflective.WorkspaceResponse, !Unmarshal Reflective.Metadata}
    (w : World) :
  (∀ args : MapBased.Flags,
     (MapBased.flag_kong_addr args ≠ "" →
        MapBased.kongAddr w args = MapBased.flag_kong_addr args)
     ∧ (MapBased.flag_kong_addr args = "" →
        Getenv w "KONG_ADMIN_ADDR" ≠ "" →
        MapBased.kongAddr w args = Getenv w "KONG_ADMIN_ADDR")
     ∧ (MapBased.flag_kong_addr args = "" →
        Getenv w "KONG_ADMIN_ADDR" = "" →
        MapBased.kongAddr w args = "http://localhost:8001")
     ∧ head (trace (MapBased.main w args))
         = Some (HttpGet (MapBased.kongAddr w args +:+ "/workspaces")))
  ∧ (∀ args : Reflective.Flags,
       (Reflective.flag_kong_addr args ≠ "" →
          Reflective.kongAddr w args = Reflective.flag_kong_addr args)
       ∧ (Reflective.flag_kong_addr args = "" →
          Getenv w "KONG_ADMIN_ADDR" ≠ "" →
          Reflective.kongAddr w args = Getenv w "KONG_ADMIN_ADDR")
       ∧ (Reflective.flag_kong_addr args = "" →
          Getenv w "KONG_ADMIN_ADDR" = "" →
          Reflective.kongAddr w args = "http://localhost:8001")
       ∧ head (trace (Reflective.main w args))
           = Some (HttpGet (Reflective.kongAddr w args +:+ "/workspaces"))).
Proof.
  split; intros args.
  - unfold MapBased.kongAddr at 1 2 3. repeat split.
    + intros Hflag. by rewrite decide_False.
    + intros Hflag Henv. by rewrite decide_True, decide_False.
    + intros Hflag Henv. by rewrite !decide_True.
    + by rewrite main_trace.
  - unfold Reflective.kongAddr at 1 2 3. repeat split.
    + intros Hflag. by rewrite decide_False.
    + intros Hflag Henv. by rewrite decide_True, decide_False.
    + intros Hflag Henv. by rewrite !decide_True.
    + by rewrite mainR_trace.
Qed.

Section AddrWitness.
Import Demo.

Lemma kong_addr_precedence_witness :
  MapBased.kongAddr (world addrEnv true)
    (MapBased.mkFlags "http://flag:8001" "" "counts") = "http://flag:8001"
  ∧ MapBased.kongAddr (world addrEnv true) (MapBased.mkFlags "" "" "counts")
    = "http://kong:8001"
  ∧ Reflective.kongAddr (world noEnv true) (Reflective.mkFlags "" "")
    = "http://localhost:8001".
Proof.
  split; [|split].
  - destruct (kong_addr_precedence (world addrEnv true)) as [Hm _].
    destruct (Hm (MapBased.mkFlags "http://flag:8001" "" "counts"))
      as (Hflag & _).
    apply Hflag. discriminate.
  - destruct (kong_addr_precedence (world addrEnv true)) as [Hm _].
    destruct (Hm (MapBased.mkFlags "" "" "counts")) as (_ & Henv & _).
    apply Henv; [reflexivity|discriminate].
  - destruct (kong_addr_precedence (world noEnv true)) as [_ Hr].
    destruct (Hr (Reflective.mkFlags "" "")) as (_ & _ & Hdefault & _).
    apply Hdefault; reflexivity.
Defined.

End AddrWitness.

(** ** Failure of the workspace list *)

(** C9.  In both variants, when the fetch of the workspace list or its
    decoding fails with error [e], [main] does the GET, prints the error
    and stops: the trace holds nothing else, so no metadata is requested
    and no table is rendered. *)
Theorem list_failure_is_fatal
    `{!GoRuntime}
    `{!Unmarshal MapBased.WorkspaceResponse, !Unmarshal MapBased.Metadata}
    `{!Unmarshal Reflective.WorkspaceResponse, !Unmarshal Reflective.Metadata}
    (w : World) (e : string) :
  (∀ args : MapBased.Flags,
     listFails (A := MapBased.WorkspaceResponse) w
       (MapBased.kongAddr w args +:+ "/workspaces") e →
     trace (MapBased.main w args)
       = [HttpGet (MapBased.kongAddr w args +:+ "/workspaces");
          Println ("Error getting workspaces: " +:+ e)]
     ∧ tables (trace (MapBased.main w args)) = []
     ∧ requests (trace (MapBased.main w args)) = [])
  ∧ (∀ args : Reflective.Flags,
       listFails (A := Reflective.WorkspaceResponse) w
         (Reflective.kongAddr w args +:+ "/workspaces") e →
       trace (Reflective.main w args)
         = [HttpGet (Reflective.kongAddr w args +:+ "/workspaces");
            Println ("Error getting workspaces: " +:+ e)]
       ∧ tables (trace (Reflective.main w args)) = []
       ∧ requests (trace (Reflective.main w args)) = []).
Proof.
  split; intros args Hfail.
  - assert (value (MapBased.getWorkspaces w
              (MapBased.kongAddr w args +:+ "/workspaces")) = Err e) as Hval.
    { rewrite getWorkspaces_value.
      destruct Hfail as [->|(resp & -> & [->|(body & -> & ->)])]; done. }
    rewrite main_trace, Hval. done.
  - assert (value (Reflective.getWorkspaces w
              (Reflective.kongAddr w args +:+ "/workspaces")) = Err e) as Hval.
    { rewrite getWorkspacesR_value.
      destruct Hfail as [->|(resp & -> & [->|(body & -> & ->)])]; done. }
    rewrite mainR_trace, Hval. done.
Qed.

Section FatalWitness.
Import Demo.

Lemma list_failure_is_fatal_witness :
  trace (MapBased.main deadWorld (MapBased.mkFlags "" "" "all"))
    = [HttpGet "http://localhost:8001/workspaces";
       Println "Error getting workspaces: connection refused"]
  ∧ trace (Reflective.main deadWorld (Reflective.mkFlags "" ""))
    = [HttpGet "http://localhost:8001/workspaces";
       Println "Error getting workspaces: connection refused"].
Proof.
  split.
  - destruct (list_failure_is_fatal deadWorld "connection refused")
      as [Hm _].
    destruct (Hm (MapBased.mkFlags "" "" "all")) as [Htrace _].
    + left. reflexivity.
    + exact Htrace.
  - destruct (list_failure_is_fatal deadWorld "connection refused")
      as [_ Hr].
    destruct (Hr (Reflective.mkFlags "" "")) as [Htrace _].
    + left. reflexivity.
    + exact Htrace.
Defined.

End FatalWitness.

(** ** Request headers *)

Section HeaderFlag.
Context `{!GoRuntime}.

(** The header of the request of the map-based [getMetadata], by the shape
    of the flag. *)
Lemma addHeaders_one_colon (req : Request) (headers k v : string) :
  Split headers ":" = [k; v] →
  ReqHeader (MapBased.addHeaders req headers)
    = Header_Set (ReqHeader req) (TrimSpace k) (TrimSpace v).
Proof.
  intros Hsplit. unfold MapBased.addHeaders.
  destruct (decide (headers ≠ "")) as [|Hne]; [by rewrite Hsplit|].
  apply dec_stable in Hne. by subst.
Qed.

Lemma addHeaders_malformed (req : Request) (headers : string) :
  occurrences ":" headers ≠ 1%nat →
  MapBased.addHeaders req headers = req.
Proof.
  intros Hocc%Split_not_two. unfold MapBased.addHeaders.
  case_decide; [|done].
  by destruct (Split headers ":") as [|? [|? [|? ?]]].
Qed.

Lemma getHeaders_one_colon (w : World) (headersFlag k v : string) :
  Split headersFlag ":" = [k; v] →
  Reflective.getHeaders w headersFlag =
    if decide (Getenv w "X_ADMIN_TOKEN" ≠ "") then
      Header_Set (Header_Set ∅ (TrimSpace k) (TrimSpace v))
        "x-admin-token" (Getenv w "X_ADMIN_TOKEN")
    else Header_Set ∅ (TrimSpace k) (TrimSpace v).
Proof.
  intros Hsplit. unfold Reflective.getHeaders.
  destruct (decide (headersFlag ≠ "")) as [|Hne]; [by rewrite Hsplit|].
  apply dec_stable in Hne. by subst.
Qed.

Lemma getHeaders_malformed (w : World) (headersFlag : string) :
  occurrences ":" headersFlag ≠ 1%nat →
  Reflective.getHeaders w headersFlag =
    if decide (Getenv w "X_ADMIN_TOKEN" ≠ "") then
      Header_Set ∅ "x-admin-token" (Getenv w "X_ADMIN_TOKEN")
    else ∅.
Proof.
  intros Hocc%Split_not_two. unfold Reflective.getHeaders.
  destruct (decide (headersFlag ≠ "")); [|done].
  by destruct (Split headersFlag ":") as [|? [|? [|? ?]]].
Qed.

End HeaderFlag.

(** C10.  In the variant that reads [X_ADMIN_TOKEN]: when the [--headers]
    flag sets the header [x-admin-token] and [X_ADMIN_TOKEN] is not empty,
    the header map of [getHeaders] holds the value of the environment
    variable under that name and nothing of the flag, and this is the
    header map of every metadata request of [main]. *)
Theorem env_token_overrides_flag
    `{!GoRuntime}
    `{!Unmarshal Reflective.WorkspaceResponse, !Unmarshal Reflective.Metadata}
    (w : World) (args : Reflective.Flags) (k v : string) :
  Reflective.flag_headers args = k +:+ ":" +:+ v →
  occurrences ":" k = 0%nat →
  occurrences ":" v = 0%nat →
  CanonicalMIMEHeaderKey (TrimSpace k) = CanonicalMIMEHeaderKey "x-admin-token" →
  Getenv w "X_ADMIN_TOKEN" ≠ "" →
  Reflective.getHeaders w (Reflective.flag_headers args)
    = {[CanonicalMIMEHeaderKey "x-admin-token" := [Getenv w "X_ADMIN_TOKEN"]]}
  ∧ ∀ req, req ∈ requests (trace (Reflective.main w args)) →
      ReqHeader req
        = {[CanonicalMIMEHeaderKey "x-admin-token"
              := [Getenv w "X_ADMIN_TOKEN"]]}.
Proof.
  intros Hflag Hk Hv Hkey Htoken.
  assert (Reflective.getHeaders w (Reflective.flag_headers args)
    = {[CanonicalMIMEHeaderKey "x-admin-token" := [Getenv w "X_ADMIN_TOKEN"]]})
    as Hheaders.
  { rewrite (getHeaders_one_colon w _ k v).
    - rewrite decide_True by done. unfold Header_Set.
      rewrite Hkey, insert_insert_eq. done.
    - rewrite Hflag. by apply Split_join. }
  split; [done|]. intros req Hreq.
  by rewrite (mainR_requests w args req Hreq).
Qed.

Section TokenWitness.
Import Demo.

Lemma env_token_overrides_flag_witness :
  Reflective.getHeaders (world tokenEnv true) "x-admin-token:secret"
    = {["X-Admin-Token" := ["envtok"]]}.
Proof.
  refine (proj1 (env_token_overrides_flag (world tokenEnv true)
                   (Reflective.mkFlags "" "x-admin-token:secret")
                   "x-admin-token" "secret" _ _ _ _ _));
    [reflexivity..|discriminate].
Defined.

End TokenWitness.

(** C6, as the code has it.  When the [--headers] flag has exactly one
    colon it is [k:v], and every metadata request carries the header whose
    name is the canonical form of [k] trimmed and whose value is [v]
    trimmed: in the map-based variant this is the only header; in the
    variant that reads [X_ADMIN_TOKEN], a non-empty [X_ADMIN_TOKEN] is set
    under [x-admin-token] after the flag, next to the flag's header or in
    its place when the names coincide.  A flag without exactly one colon
    contributes no header in either variant. *)
Theorem header_flag_applied
    `{!GoRuntime}
    `{!Unmarshal MapBased.WorkspaceResponse, !Unmarshal MapBased.Metadata}
    `{!Unmarshal Reflective.WorkspaceResponse, !Unmarshal Reflective.Metadata}
    (w : World) :
  (∀ (args : MapBased.Flags) (req : Request),
     req ∈ requests (trace (MapBased.main w args)) →
     (occurrences ":" (MapBased.flag_headers args) = 1%nat →
        ∃ k v, MapBased.flag_headers args = k +:+ ":" +:+ v
          ∧ ReqHeader req
              = {[CanonicalMIMEHeaderKey (TrimSpace k) := [TrimSpace v]]})
     ∧ (occurrences ":" (MapBased.flag_headers args) ≠ 1%nat →
        ReqHeader req = ∅))
  ∧ (∀ (args : Reflective.Flags) (req : Request),
       req ∈ requests (trace (Reflective.main w args)) →
       (occurrences ":" (Reflective.flag_headers args) = 1%nat →
          ∃ k v, Reflective.flag_headers args = k +:+ ":" +:+ v
            ∧ ReqHeader req
                = if decide (Getenv w "X_ADMIN_TOKEN" = "") then
                    {[CanonicalMIMEHeaderKey (TrimSpace k) := [TrimSpace v]]}
                  else
                    <[CanonicalMIMEHeaderKey "x-admin-token"
                        := [Getenv w "X_ADMIN_TOKEN"]]>
                      {[CanonicalMIMEHeaderKey (TrimSpace k)
                          := [TrimSpace v]]})
       ∧ (occurrences ":" (Reflective.flag_headers args) ≠ 1%nat →
          ReqHeader req
            = if decide (Getenv w "X_ADMIN_TOKEN" = "") then ∅
              else {[CanonicalMIMEHeaderKey "x-admin-token"
                       := [Getenv w "X_ADMIN_TOKEN"]]})).
Proof.
  split; intros args req Hreq.
  - rewrite (main_requests w args req Hreq). split.
    + intros (k & v & Hflag & Hsplit)%Split_one. exists k, v.
      split; [done|]. by rewrite (addHeaders_one_colon _ _ k v).
    + intros Hocc. by rewrite addHeaders_malformed.
  - rewrite (mainR_requests w args req Hreq). split.
    + intros (k & v & Hflag & Hsplit)%Split_one. exists k, v.
      split; [done|]. rewrite (getHeaders_one_colon w _ k v Hsplit).
      unfold Header_Set. by repeat case_decide.
    + intros Hocc. rewrite (getHeaders_malformed w _ Hocc).
      unfold Header_Set. by repeat case_decide.
Qed.

Section HeaderWitness.
Import Demo.

Lemma header_flag_applied_witness :
  ∃ k v, " x-admin-token : secret " = k +:+ ":" +:+ v
    ∧ ({["X-Admin-Token" := ["secret"]]} : Header)
      = {[canonicalKey (asciiTrimSpace k) := [asciiTrimSpace v]]}.
Proof.
  destruct (header_flag_applied (world noEnv true)) as [Hm _].
  destruct (Hm (MapBased.mkFlags "" " x-admin-token : secret " "counts")
              (mkRequest "GET" "http://localhost:8001/workspaces/a/meta"
                 {["X-Admin-Token" := ["secret"]]})) as [Hone _].
  - vm_compute. apply list_elem_of_here.
  - apply Hone. reflexivity.
Defined.

(** The claim of C6 as stated fails in the variant that reads
    [X_ADMIN_TOKEN]: with the flag [x-admin-token:secret], one colon, and
    [X_ADMIN_TOKEN=envtok], the two metadata requests carry
    [X-Admin-Token: envtok]; none carries the flag's value. *)
Lemma header_flag_counterexample :
  occurrences ":" "x-admin-token:secret" = 1%nat
  ∧ requests (trace (Reflective.main (world tokenEnv true)
                       (Reflective.mkFlags "" "x-admin-token:secret")))
    = [mkRequest "GET" "http://localhost:8001/workspaces/a/meta"
         {["X-Admin-Token" := ["envtok"]]};
       mkRequest "GET" "http://localhost:8001/workspaces/b/meta"
         {["X-Admin-Token" := ["envtok"]]}]
  ∧ ¬ (∀ req,
         req ∈ requests (trace (Reflective.main (world tokenEnv true)
                            (Reflective.mkFlags "" "x-admin-token:secret"))) →
         ReqHeader req
           = {[canonicalKey (asciiTrimSpace "x-admin-token")
                 := [asciiTrimSpace "secret"]]}).
Proof.
  assert (requests (trace (Reflective.main (world tokenEnv true)
                       (Reflective.mkFlags "" "x-admin-token:secret")))
    = [mkRequest "GET" "http://localhost:8001/workspaces/a/meta"
         {["X-Admin-Token" := ["envtok"]]};
       mkRequest "GET" "http://localhost:8001/workspaces/b/meta"
         {["X-Admin-Token" := ["envtok"]]}]) as Hreqs
    by (vm_compute; reflexivity).
  split; [reflexivity|]. split; [exact Hreqs|].
  rewrite Hreqs. intros Hall.
  specialize (Hall _ (list_elem_of_here _ _)). simpl in Hall.
  apply (f_equal (λ h : Header, h !! "X-Admin-Token")) in Hall.
  vm_compute in Hall. discriminate.
Qed.

End HeaderWitness.

(** ** The totals table *)

Section SortedTotals.
Context `{!GoRuntime}.

Lemma sortedMetaFields_sorted (counts : gmap string Z) :
  StronglySorted (λ a b, MapBased.Count a ≤ MapBased.Count b)
    (MapBased.sortedMetaFields counts).
Proof. apply (sort_Slice_sorted MapBased.Count). Qed.

Lemma sortedMetaFields_perm (counts : gmap string Z) :
  (λ metaField, (MapBased.Field metaField, MapBased.Count metaField))
    <$> MapBased.sortedMetaFields counts
  ≡ₚ map_to_list counts.
Proof.
  unfold MapBased.sortedMetaFields.
  rewrite sort_Slice_perm, <- list_fmap_compose, map_range_perm.
  rewrite <- (list_fmap_id (map_to_list counts)) at 2.
  apply reflexive_eq, list_fmap_ext. by intros i [k v].
Qed.

End SortedTotals.

(** C8, as the code has it.  In the sorting variant the totals table opens
    with the [Workspaces] row, whatever its count; the rows after it are
    the entries of the aggregate map, one row each, in non-decreasing order
    of count. *)
Theorem totals_sorted_after_workspaces `{!GoRuntime}
    (counts : gmap string Z) (workspaceCount : Z) :
  ∃ fields : list (string * Z),
    MapBased.countsTableRows counts workspaceCount
      = ("Workspaces", workspaceCount) :: fields
    ∧ rowsAscending fields
    ∧ fields ≡ₚ map_to_list counts
    ∧ trace (MapBased.printCountsTable counts workspaceCount)
        = [Render ["Meta Field"; "Count"]
             (["Workspaces"; Itoa workspaceCount]
                :: (MapBased.countRow <$> fields))].
Proof.
  eexists. split; [reflexivity|]. split; [|split; [|done]].
  - unfold rowsAscending.
    apply (StronglySorted_fmap _ (λ a b, MapBased.Count a ≤ MapBased.Count b));
      [done|apply sortedMetaFields_sorted].
  - apply sortedMetaFields_perm.
Qed.

Section TotalsCounterexample.
Import Demo.

(** The claim of C8 as stated fails: with the aggregate
    [{plugins: 5, routes: 1}] of two workspaces the table reads
    [Workspaces 2], [routes 1], [plugins 5]; the first row's count exceeds
    the second's. *)
Lemma totals_sorted_counterexample :
  MapBased.countsTableRows (<["routes" := 1]> {["plugins" := 5]}) 2
    = [("Workspaces", 2); ("routes", 1); ("plugins", 5)]
  ∧ tables (trace (MapBased.main (world noEnv true)
                     (MapBased.mkFlags "" "" "counts")))
    = [(["Meta Field"; "Count"],
        [["Workspaces"; "2"]; ["routes"; "1"]; ["plugins"; "5"]])]
  ∧ ¬ rowsAscending
        (MapBased.countsTableRows (<["routes" := 1]> {["plugins" := 5]}) 2).
Proof.
  assert (MapBased.countsTableRows (<["routes" := 1]> {["plugins" := 5]}) 2
    = [("Workspaces", 2); ("routes", 1); ("plugins", 5)]) as Hrows
    by (vm_compute; reflexivity).
  split; [exact Hrows|]. split; [vm_compute; reflexivity|].
  rewrite Hrows. unfold rowsAscending. intros Hsorted.
  apply StronglySorted_inv in Hsorted as [_ Hall].
  apply Forall_cons in Hall as [Hle _]. simpl in Hle. lia.
Qed.

End TotalsCounterexample.

(** ** Two workspaces *)

Section TwoWorkspaces.
Import MapBased MapBasedSpec.
Context `{!GoRuntime, !Unmarshal WorkspaceResponse, !Unmarshal Metadata}.

Lemma aggregate_two :
  updateCounts (<["routes" := 1]> {["plugins" := 3]})
    (updateCounts {["plugins" := 2]} ∅)
  = <["routes" := 1]> {["plugins" := 5]}.
Proof.
  rewrite updateCounts_empty_r. apply map_eq. intros k.
  rewrite lookup_updateCounts.
  destruct (decide (k = "routes")) as [->|Hr]; [done|].
  destruct (decide (k = "plugins")) as [->|Hp]; [done|].
  by rewrite !lookup_insert_ne, !lookup_singleton_ne.
Qed.

Lemma sortedMetaFields_two :
  sortedMetaFields (<["routes" := 1]> {["plugins" := 5]})
  = [mkMetaField "routes" 1; mkMetaField "plugins" 5].
Proof.
  pose proof (sortedMetaFields_sorted (<["routes" := 1]> {["plugins" := 5]}))
    as Hsorted.
  assert (sortedMetaFields (<["routes" := 1]> {["plugins" := 5]})
          ≡ₚ [mkMetaField "routes" 1; mkMetaField "plugins" 5]) as Hperm.
  { unfold sortedMetaFields. rewrite sort_Slice_perm, map_range_perm.
    vm_compute. first [reflexivity|apply perm_swap]. }
  symmetry in Hperm.
  apply Permutation_length_2_inv in Hperm as [Hl|Hl]; [done|].
  rewrite Hl in Hsorted. apply StronglySorted_inv in Hsorted as [_ Hall].
  apply Forall_cons in Hall as [Hle _]. simpl in Hle. lia.
Qed.

End TwoWorkspaces.

(** C1.  With the workspace list [a, b], counts [{plugins: 2}] for [a] and
    [{plugins: 3, routes: 1}] for [b], the loop of [main] ends with the
    aggregate [{plugins: 5, routes: 1}], and the totals table, printed
    under [--meta counts] (the default) or [--meta all], is the last table
    and reads [Workspaces 2], [routes 1], [plugins 5]. *)
Theorem two_workspaces_totals
    `{!GoRuntime}
    `{!Unmarshal MapBased.WorkspaceResponse, !Unmarshal MapBased.Metadata}
    (w : World) (args : MapBased.Flags) (a b : MapBased.Workspace) :
  MapBased.Name a = "a" →
  MapBased.Name b = "b" →
  value (MapBased.getWorkspaces w (MapBased.kongAddr w args +:+ "/workspaces"))
    = Ok [a; b] →
  value (MapBased.getMetadata w
           (MapBased.kongAddr w args +:+ "/workspaces/" +:+ "a" +:+ "/meta")
           (MapBased.flag_headers args))
    = Ok (MapBased.mkMetadata {["plugins" := 2]}) →
  value (MapBased.getMetadata w
           (MapBased.kongAddr w args +:+ "/workspaces/" +:+ "b" +:+ "/meta")
           (MapBased.flag_headers args))
    = Ok (MapBased.mkMetadata (<["routes" := 1]> {["plugins" := 3]})) →
  (value (MapBased.fetchAll w (MapBased.kongAddr w args)
            (MapBased.flag_headers args) [a; b] ∅ [])).1
    = <["routes" := 1]> {["plugins" := 5]}
  ∧ (MapBased.flag_meta args = "counts" ∨ MapBased.flag_meta args = "all" →
     last (tables (trace (MapBased.main w args)))
       = Some (["Meta Field"; "Count"],
               [["Workspaces"; "2"]; ["routes"; "1"]; ["plugins"; "5"]])).
Proof.
  intros Ha Hb Hlist Hmeta_a Hmeta_b.
  assert (MapBasedSpec.fetched w (MapBased.kongAddr w args)
            (MapBased.flag_headers args) [a; b]
          = [MapBased.mkWorkspaceMetadata "a"
               (MapBased.mkMetadata {["plugins" := 2]});
             MapBased.mkWorkspaceMetadata "b"
               (MapBased.mkMetadata (<["routes" := 1]> {["plugins" := 3]}))])
    as Hfetched.
  { unfold MapBasedSpec.fetched, MapBasedSpec.fetchOne. cbn [omap list_omap].
    by rewrite Ha, Hb, Hmeta_a, Hmeta_b. }
  split.
  - rewrite fetchAll_value, Hfetched. cbn. apply aggregate_two.
  - intros Hflag. rewrite (main_tables w args [a; b] Hlist).
    destruct (decide (MapBased.flag_meta args = "counts"
                      ∨ MapBased.flag_meta args = "all")) as [_|Hno];
      [|by destruct Hno].
    rewrite last_snoc, Hfetched.
    unfold MapBasedSpec.aggregate. cbn [fmap list_fmap compose foldl
      MapBased.Meta MapBased.Counts length].
    rewrite aggregate_two. unfold MapBased.countsTableRows.
    by rewrite sortedMetaFields_two.
Qed.

Section TwoWorkspacesWitness.
Import Demo.

Lemma two_workspaces_totals_witness :
  (value (MapBased.fetchAll (world noEnv true) "http://localhost:8001" ""
            [MapBased.mkWorkspace "a" "1"; MapBased.mkWorkspace "b" "2"]
            ∅ [])).1
    = <["routes" := 1]> {["plugins" := 5]}
  ∧ last (tables (trace (MapBased.main (world noEnv true)
                           (MapBased.mkFlags "" "" "counts"))))
    = Some (["Meta Field"; "Count"],
            [["Workspaces"; "2"]; ["routes"; "1"]; ["plugins"; "5"]]).
Proof.
  destruct (two_workspaces_totals (world noEnv true)
              (MapBased.mkFlags "" "" "counts")
              (MapBased.mkWorkspace "a" "1") (MapBased.mkWorkspace "b" "2"))
    as [Hagg Htable]; [reflexivity..|].
  split; [exact Hagg|]. apply Htable. left. reflexivity.
Defined.

End TwoWorkspacesWitness.

(** ** Workspaces whose metadata cannot be fetched *)

Section Skipped.
Context `{!GoRuntime}.

(** Every fetched workspace is one of the list whose metadata request
    succeeded; a workspace whose request failed has no entry. *)
Lemma elem_of_fetched `{!Unmarshal MapBased.Metadata} (w : World)
    (urlPtr headersPtr : string) (workspaces : list MapBased.Workspace)
    (workspaceMetadata : MapBased.WorkspaceMetadata) :
  workspaceMetadata ∈ MapBasedSpec.fetched w urlPtr headersPtr workspaces ↔
  ∃ workspace, workspace ∈ workspaces
    ∧ value (MapBased.getMetadata w
               (urlPtr +:+ "/workspaces/" +:+ MapBased.Name workspace
                  +:+ "/meta") headersPtr)
      = Ok (MapBased.Meta workspaceMetadata)
    ∧ MapBased.WorkspaceName workspaceMetadata = MapBased.Name workspace.
Proof.
  unfold MapBasedSpec.fetched. rewrite list_elem_of_omap.
  unfold MapBasedSpec.fetchOne. split.
  - intros (workspace & Hin & Hone). exists workspace. split; [done|].
    destruct (value (MapBased.getMetadata w _ headersPtr)); [|done].
    by injection Hone as <-.
  - intros (workspace & Hin & Hmeta & Hname). exists workspace.
    split; [done|]. rewrite Hmeta, <- Hname. by destruct workspaceMetadata.
Qed.

Lemma elem_of_fetchedR `{!Unmarshal Reflective.Metadata} (w : World)
    (urlPtr : string) (headers : Header)
    (workspaces : list Reflective.Workspace)
    (workspaceMetadata : Reflective.WorkspaceMetadata) :
  workspaceMetadata ∈ ReflectiveSpec.fetched w urlPtr headers workspaces ↔
  ∃ workspace, workspace ∈ workspaces
    ∧ value (Reflective.getMetadata w
               (urlPtr +:+ "/workspaces/" +:+ Reflective.Name workspace
                  +:+ "/meta") headers)
      = Ok (Reflective.Meta workspaceMetadata)
    ∧ Reflective.WorkspaceName workspaceMetadata = Reflective.Name workspace.
Proof.
  unfold ReflectiveSpec.fetched. rewrite list_elem_of_omap.
  unfold ReflectiveSpec.fetchOne. split.
  - intros (workspace & Hin & Hone). exists workspace. split; [done|].
    destruct (value (Reflective.getMetadata w _ headers)); [|done].
    by injection Hone as <-.
  - intros (workspace & Hin & Hmeta & Hname). exists workspace.
    split; [done|]. rewrite Hmeta, <- Hname. by destruct workspaceMetadata.
Qed.

End Skipped.

(** C2, as the code has it.  Once the workspace list is there, the
    per-workspace table has one row for every workspace whose metadata was
    fetched and decoded, in list order, and none for the others, and the
    aggregate is the sum of the counts of those workspaces only.  In the
    map-based variant the [Workspaces] row is the number of those
    workspaces, the number of rows of the per-workspace table; the tables
    are rendered as [--meta] asks.  In the reflective variant both tables
    are rendered and the [Workspaces] row is the length of the workspace
    list, the workspaces that failed included. *)
Theorem failed_workspaces_skipped
    `{!GoRuntime}
    `{!Unmarshal MapBased.WorkspaceResponse, !Unmarshal MapBased.Metadata}
    `{!Unmarshal Reflective.WorkspaceResponse, !Unmarshal Reflective.Metadata}
    (w : World) :
  (∀ (args : MapBased.Flags) (workspaces : list MapBased.Workspace),
     value (MapBased.getWorkspaces w
              (MapBased.kongAddr w args +:+ "/workspaces")) = Ok workspaces →
     let rows := MapBasedSpec.fetched w (MapBased.kongAddr w args)
                   (MapBased.flag_headers args) workspaces in
     value (MapBased.fetchAll w (MapBased.kongAddr w args)
              (MapBased.flag_headers args) workspaces ∅ [])
       = (MapBasedSpec.aggregate rows, rows)
     ∧ (∀ workspaceMetadata, workspaceMetadata ∈ rows →
          ∃ workspace, workspace ∈ workspaces
            ∧ value (MapBased.getMetadata w
                       (MapBased.kongAddr w args +:+ "/workspaces/"
                          +:+ MapBased.Name workspace +:+ "/meta")
                       (MapBased.flag_headers args))
              = Ok (MapBased.Meta workspaceMetadata)
            ∧ MapBased.WorkspaceName workspaceMetadata
              = MapBased.Name workspace)
     ∧ tables (trace (MapBased.main w args)) =
         (if decide (MapBased.flag_meta args = "workspace"
                     ∨ MapBased.flag_meta args = "all") then
            [(["Workspace Name"; "Plugins"; "Targets"; "Services"; "Routes";
               "Upstreams"], MapBased.workspaceRow <$> rows)]
          else [])
         ++
         (if decide (MapBased.flag_meta args = "counts"
                     ∨ MapBased.flag_meta args = "all") then
            [(["Meta Field"; "Count"],
              MapBased.countRow
                <$> MapBased.countsTableRows (MapBasedSpec.aggregate rows)
                      (Z.of_nat (length rows)))]
          else []))
  ∧ (∀ (args : Reflective.Flags) (workspaces : list Reflective.Workspace),
       value (Reflective.getWorkspaces w
                (Reflective.kongAddr w args +:+ "/workspaces"))
         = Ok workspaces →
       let rows := ReflectiveSpec.fetched w (Reflective.kongAddr w args)
                     (Reflective.getHeaders w (Reflective.flag_headers args))
                     workspaces in
       value (Reflective.fetchAll w (Reflective.kongAddr w args)
                (Reflective.getHeaders w (Reflective.flag_headers args))
                workspaces ∅ [])
         = Some (ReflectiveSpec.aggregate rows, rows)
       ∧ (∀ workspaceMetadata, workspaceMetadata ∈ rows →
            ∃ workspace, workspace ∈ workspaces
              ∧ value (Reflective.getMetadata w
                         (Reflective.kongAddr w args +:+ "/workspaces/"
                            +:+ Reflective.Name workspace +:+ "/meta")
                         (Reflective.getHeaders w
                            (Reflective.flag_headers args)))
                = Ok (Reflective.Meta workspaceMetadata)
              ∧ Reflective.WorkspaceName workspaceMetadata
                = Reflective.Name workspace)
       ∧ tables (trace (Reflective.main w args)) =
           [(["Workspace"; "Plugins"; "Targets"; "Services"; "Routes";
              "Upstreams"], Reflective.workspaceRow <$> rows);
            (["Meta Field"; "Count"],
             Reflective.countRow
               <$> Reflective.countsTableRows (ReflectiveSpec.aggregate rows)
                     (Z.of_nat (length workspaces)))]).
Proof.
  split; intros args workspaces Hlist rows.
  - split; [by rewrite fetchAll_value|]. split.
    + intros workspaceMetadata Hin. by apply elem_of_fetched in Hin.
    + by apply main_tables.
  - split; [by rewrite fetchAllR_value|]. split.
    + intros workspaceMetadata Hin. by apply elem_of_fetchedR in Hin.
    + by apply mainR_tables.
Qed.

Section SkippedWitness.
Import Demo.

Lemma failed_workspaces_skipped_witness :
  value (MapBased.fetchAll (world noEnv false) "http://localhost:8001" ""
           [MapBased.mkWorkspace "a" "1"; MapBased.mkWorkspace "b" "2"] ∅ [])
    = ({["plugins" := 2]},
       [MapBased.mkWorkspaceMetadata "a"
          (MapBased.mkMetadata {["plugins" := 2]})])
  ∧ tables (trace (MapBased.main (world noEnv false)
                     (MapBased.mkFlags "" "" "all")))
    = [(["Workspace Name"; "Plugins"; "Targets"; "Services"; "Routes";
         "Upstreams"], [["a"; "2"; "0"; "0"; "0"; "0"]]);
       (["Meta Field"; "Count"], [["Workspaces"; "1"]; ["plugins"; "2"]])].
Proof.
  destruct (failed_workspaces_skipped (world noEnv false)) as [Hm _].
  destruct (Hm (MapBased.mkFlags "" "" "all")
              [MapBased.mkWorkspace "a" "1"; MapBased.mkWorkspace "b" "2"])
    as (Hloop & _ & Htables); [reflexivity|].
  split.
  - etrans; [exact Hloop|]. vm_compute. reflexivity.
  - etrans; [exact Htables|]. vm_compute. reflexivity.
Defined.

(** The claim of C2 as stated fails in the reflective variant: with
    workspaces [a] and [b] and the connection for [b]'s metadata refused,
    the per-workspace table has the one row of [a] and the totals table
    reads [Workspaces 2], not 1. *)
Lemma failed_workspaces_counterexample :
  tables (trace (Reflective.main (world noEnv false)
                   (Reflective.mkFlags "" "")))
    = [(["Workspace"; "Plugins"; "Targets"; "Services"; "Routes";
         "Upstreams"], [["a"; "2"; "0"; "0"; "0"; "0"]]);
       (["Meta Field"; "Count"], [["Plugins"; "2"]; ["Workspaces"; "2"]])]
  ∧ ¬ (∀ header rows,
         (header, rows) ∈ tables (trace (Reflective.main (world noEnv false)
                                           (Reflective.mkFlags "" ""))) →
         ∀ n, ["Workspaces"; n] ∈ rows → n = "1").
Proof.
  assert (tables (trace (Reflective.main (world noEnv false)
                   (Reflective.mkFlags "" "")))
    = [(["Workspace"; "Plugins"; "Targets"; "Services"; "Routes";
         "Upstreams"], [["a"; "2"; "0"; "0"; "0"; "0"]]);
       (["Meta Field"; "Count"], [["Plugins"; "2"]; ["Workspaces"; "2"]])])
    as Htables by (vm_compute; reflexivity).
  split; [exact Htables|]. rewrite Htables. intros Hall.
  specialize (Hall ["Meta Field"; "Count"]
                [["Plugins"; "2"]; ["Workspaces"; "2"]]).
  assert ("2" = "1") as Habs; [|discriminate].
  apply Hall.
  - right. left.
  - right. left.
Qed.

End SkippedWitness.

(** * Further properties of the code *)

(** ** The reflective walk on any struct *)

Section ReflectiveWalk.
Import Reflective ReflectiveSpec.





End ReflectiveWalk.


(** ** Totals are sums *)

Section Totals.


Lemma Zsum_cons (z : Z) (l : list Z) : Zsum (z :: l) = z + Zsum l.
Proof. done. Qed.







End Totals.


Section MapTotals.
Import MapBased MapBasedSpec.
Context `{!GoRuntime}.

Lemma is_int_0 : is_int 0.
Proof. unfold is_int, int_min, int_max. lia. Qed.

Lemma intValued_index (m : gmap string Z) (k : string) :
  intValued m → is_int (index m k).
Proof.
  intros Hm. unfold index. destruct (m !! k) as [v|] eqn:Hk; simpl.
  - by apply (Hm k).
  - apply is_int_0.
Qed.

Lemma index_updateCounts (from into : gmap string Z) (k : string) :
  intValued from → intValued into →
  index (updateCounts from into) k = int_wrap (index into k + index from k).
Proof.
  intros Hfrom Hinto. unfold index at 1. rewrite lookup_updateCounts.
  pose proof (intValued_index into k Hinto) as Hi.
  unfold index in *. destruct (from !! k) as [v|] eqn:Hv; simpl.
  - destruct (into !! k) as [c|]; simpl; [done|].
    rewrite Z.add_0_l. symmetry. by apply int_wrap_id, (Hfrom k).
  - rewrite Z.add_0_r. symmetry. by apply int_wrap_id.
Qed.

Lemma updateCounts_intValued (from into : gmap string Z) :
  intValued from → intValued into → intValued (updateCounts from into).
Proof.
  intros Hfrom Hinto k v. rewrite lookup_updateCounts.
  destruct (from !! k) as [x|] eqn:Hx; [|by apply Hinto].
  destruct (into !! k) as [c|]; intros [= <-].
  - apply int_wrap_is_int.
  - by apply (Hfrom k).
Qed.

Lemma foldl_updateCounts_sum (ms : list (gmap string Z)) (k : string) :
  Forall intValued ms → ∀ counts, intValued counts →
  intValued (foldl (λ counts m, updateCounts m counts) counts ms)
  ∧ index (foldl (λ counts m, updateCounts m counts) counts ms) k
    = int_wrap (index counts k + Zsum ((λ m, index m k) <$> ms)).
Proof.
  induction 1 as [|m ms Hm _ IH]; intros counts Hcounts.
  - split; [done|]. cbn. rewrite Z.add_0_r. symmetry.
    by apply int_wrap_id, intValued_index.
  - cbn [foldl fmap list_fmap]. rewrite Zsum_cons.
    destruct (IH (updateCounts m counts)) as [Hval Hsum];
      [by apply updateCounts_intValued|].
    split; [done|]. rewrite Hsum, index_updateCounts by done.
    rewrite int_wrap_add_l. f_equal. lia.
Qed.

Lemma is_Some_updateCounts (from into : gmap string Z) (k : string) :
  is_Some (updateCounts from into !! k)
  ↔ is_Some (from !! k) ∨ is_Some (into !! k).
Proof.
  rewrite lookup_updateCounts. destruct (from !! k) as [v|].
  - split; [by left|by eauto].
  - split; [by right|]. intros [[? [=]]|?]; done.
Qed.

Lemma is_Some_foldl_updateCounts (ms : list (gmap string Z)) (k : string) :
  ∀ counts,
  is_Some (foldl (λ counts m, updateCounts m counts) counts ms !! k)
  ↔ is_Some (counts !! k) ∨ ∃ m, m ∈ ms ∧ is_Some (m !! k).
Proof.
  induction ms as [|m ms IH]; intros counts.
  - simpl. split; [by left|]. intros [?|(m & Hm & _)]; [done|by inversion Hm].
  - cbn [foldl]. rewrite IH, is_Some_updateCounts. split.
    + intros [[?|?]|(m' & ? & ?)]; [right|by left|right].
      * exists m. split; [left|done].
      * exists m'. split; [by right|done].
    + intros [?|(m' & Hin & ?)]; [by left; right|].
      apply elem_of_cons in Hin as [->|?]; [by left; left|].
      right. by exists m'.
Qed.

End MapTotals.

(** X3.  In the map-based variant, for counts that are Go [int]s, the
    total under every key is the sum of that key's counts over the fetched
    workspaces (a workspace without the key adds 0), reduced to Go's 64-bit
    [int] by wrap-around; and every total is again an [int]. *)
Theorem mapbased_totals_are_sums `{!GoRuntime}
    (rows : list MapBased.WorkspaceMetadata) (k : string) :
  Forall (λ workspaceMetadata,
            intValued (MapBased.Counts (MapBased.Meta workspaceMetadata)))
    rows →
  MapBased.index (MapBasedSpec.aggregate rows) k
    = int_wrap
        (Zsum ((λ workspaceMetadata,
                  MapBased.index
                    (MapBased.Counts (MapBased.Meta workspaceMetadata)) k)
               <$> rows))
  ∧ intValued (MapBasedSpec.aggregate rows).
Proof.
  intros Hrows. unfold MapBasedSpec.aggregate.
  destruct (foldl_updateCounts_sum
              ((MapBased.Counts ∘ MapBased.Meta) <$> rows) k)
    with (counts := (∅ : gmap string Z)) as [Hval Hsum].
  - by apply Forall_fmap.
  - intros k' v. by rewrite lookup_empty.
  - split; [|done]. rewrite Hsum. unfold MapBased.index at 1.
    rewrite lookup_empty. simpl. by rewrite <- list_fmap_compose.
Qed.

Section MapTotalsWitness.
Import Demo.

Lemma mapbased_totals_are_sums_witness :
  MapBased.index
    (MapBasedSpec.aggregate
       [MapBased.mkWorkspaceMetadata "a" (MapBased.mkMetadata {["plugins" := 2]});
        MapBased.mkWorkspaceMetadata "b"
          (MapBased.mkMetadata (<["routes" := 1]> {["plugins" := 3]}))])
    "plugins"
  = 5.
Proof.
  refine (proj1 (mapbased_totals_are_sums
    [MapBased.mkWorkspaceMetadata "a" (MapBased.mkMetadata {["plugins" := 2]});
     MapBased.mkWorkspaceMetadata "b"
       (MapBased.mkMetadata (<["routes" := 1]> {["plugins" := 3]}))]
    "plugins" _)).
  assert (Hsmall : ∀ v : Z, 0 ≤ v ≤ 3 → is_int v)
    by (unfold is_int, int_min, int_max; lia).
  apply Forall_cons_2; [|apply Forall_cons_2; [|apply Forall_nil_2]];
    intros k v; simpl.
  - intros [<- <-]%lookup_singleton_Some. apply Hsmall. lia.
  - intros [[<- <-]|[_ [<- <-]%lookup_singleton_Some]]%lookup_insert_Some;
      apply Hsmall; lia.
Defined.

End MapTotalsWitness.

(** X4.  In the map-based variant a key is in the aggregate exactly when
    the counts of some fetched workspace have it, whatever its value: a
    count of 0 still makes an entry (unlike the reflective variant). *)
Theorem mapbased_keeps_every_key `{!GoRuntime}
    (rows : list MapBased.WorkspaceMetadata) (k : string) :
  is_Some (MapBasedSpec.aggregate rows !! k)
  ↔ ∃ workspaceMetadata,
      workspaceMetadata ∈ rows
      ∧ is_Some (MapBased.Counts (MapBased.Meta workspaceMetadata) !! k).
Proof.
  unfold MapBasedSpec.aggregate.
  rewrite is_Some_foldl_updateCounts, lookup_empty. split.
  - intros [[? [=]]|(m & Hin & Hk)].
    apply list_elem_of_fmap in Hin as (wm & -> & Hwm). by exists wm.
  - intros (wm & Hwm & Hk). right.
    exists (MapBased.Counts (MapBased.Meta wm)). split; [|done].
    apply list_elem_of_fmap. by exists wm.
Qed.


(** ** What the loop of [main] asks and prints *)

Lemma printed_app (t1 t2 : list Event) :
  printed (t1 ++ t2) = printed t1 ++ printed t2.
Proof. apply omap_app. Qed.

Section MapLoop.
Import MapBased MapBasedSpec.
Context `{!GoRuntime, !Unmarshal WorkspaceResponse, !Unmarshal Metadata}.
Context (w : World).

Lemma getMetadata_trace (url headers : string) :
  trace (getMetadata w url headers) =
    match url_Parse_error url with
    | Some _ => []
    | None => [HttpDo (addHeaders (mkRequest "GET" url ∅) headers)]
    end.
Proof.
  unfold getMetadata, NewRequest.
  destruct (url_Parse_error url) as [e|]; [done|].
  rewrite trace_bind, trace_emit.
  destruct (client_Do w _) as [resp|e]; [|done].
  destruct (ReadAll resp) as [body|e]; [|done].
  by destruct (json_Unmarshal body).
Qed.

Lemma fetchAll_trace (urlPtr headersPtr : string)
    (workspaces : list Workspace) :
  ∀ counts workspaceMetadataList,
  requests (trace (fetchAll w urlPtr headersPtr workspaces counts
                     workspaceMetadataList))
    = omap (requestOf urlPtr headersPtr) workspaces
  ∧ printed (trace (fetchAll w urlPtr headersPtr workspaces counts
                      workspaceMetadataList))
    = omap (errorLineOf w urlPtr headersPtr) workspaces.
Proof.
  induction workspaces as [|workspace rest IH]; intros counts wml; [done|].
  cbn [fetchAll omap list_omap]. unfold requestOf at 1, errorLineOf at 1.
  rewrite trace_bind, requests_app, printed_app, getMetadata_trace.
  destruct (value (getMetadata w _ headersPtr)) as [meta|e].
  - destruct (IH (updateCounts (Counts meta) counts)
                (wml ++ [mkWorkspaceMetadata (Name workspace) meta]))
      as [-> ->].
    by destruct (url_Parse_error _).
  - rewrite trace_bind, requests_app, printed_app.
    destruct (IH counts wml) as [-> ->].
    by destruct (url_Parse_error _).
Qed.

End MapLoop.

Section ReflectiveLoop.
Import Reflective ReflectiveSpec.
Context `{!GoRuntime, !Unmarshal WorkspaceResponse, !Unmarshal Metadata}.
Context (w : World).

Lemma getMetadataR_trace (url : string) (headers : Header) :
  trace (getMetadata w url headers) =
    match url_Parse_error url with
    | Some _ => []
    | None => [HttpDo (mkRequest "GET" url headers)]
    end.
Proof.
  unfold getMetadata, NewRequest.
  destruct (url_Parse_error url) as [e|]; [done|].
  rewrite trace_bind, trace_emit.
  destruct (client_Do w _) as [resp|e]; [|done].
  destruct (ReadAll resp) as [body|e]; [|done].
  by destruct (json_Unmarshal body).
Qed.

Lemma fetchAllR_trace (urlPtr : string) (headers : Header)
    (workspaces : list Workspace) :
  ∀ counts workspaceMetadataList,
  requests (trace (fetchAll w urlPtr headers workspaces counts
                     workspaceMetadataList))
    = omap (requestOf urlPtr headers) workspaces
  ∧ printed (trace (fetchAll w urlPtr headers workspaces counts
                      workspaceMetadataList))
    = omap (errorLineOf w urlPtr headers) workspaces.
Proof.
  induction workspaces as [|workspace rest IH]; intros counts wml; [done|].
  cbn [fetchAll omap list_omap]. unfold requestOf at 1, errorLineOf at 1.
  rewrite trace_bind, requests_app, printed_app, getMetadataR_trace.
  destruct (value (getMetadata w _ headers)) as [meta|e].
  - rewrite updateCounts_Metadata.
    destruct (IH (addMetadata counts meta)
                (wml ++ [mkWorkspaceMetadata (Name workspace) meta]))
      as [-> ->].
    by destruct (url_Parse_error _).
  - rewrite trace_bind, requests_app, printed_app.
    destruct (IH counts wml) as [-> ->].
    by destruct (url_Parse_error _).
Qed.

End ReflectiveLoop.


Section RequestWitness.
Import Demo.


End RequestWitness.

(** X7.  Once the workspace list is there, the lines [main] prints are one
    line [Error getting metadata for workspace <name>: <error>] for every
    listed workspace whose metadata could not be had, in list order, and
    after them the titles of the tables it renders.  Both variants. *)
Theorem one_error_line_per_failure
    `{!GoRuntime}
    `{!Unmarshal MapBased.WorkspaceResponse, !Unmarshal MapBased.Metadata}
    `{!Unmarshal Reflective.WorkspaceResponse, !Unmarshal Reflective.Metadata}
    (w : World) :
  (∀ (args : MapBased.Flags) (workspaces : list MapBased.Workspace),
     value (MapBased.getWorkspaces w
              (MapBased.kongAddr w args +:+ "/workspaces")) = Ok workspaces →
     printed (trace (MapBased.main w args))
       = omap (MapBasedSpec.errorLineOf w (MapBased.kongAddr w args)
                 (MapBased.flag_headers args)) workspaces
         ++ (if decide (MapBased.flag_meta args = "workspace"
                        ∨ MapBased.flag_meta args = "all")
             then ["Individual Workspace Metadata:"] else [])
         ++ (if decide (MapBased.flag_meta args = "counts"
                        ∨ MapBased.flag_meta args = "all")
             then ["Total Meta Field Counts:"] else []))
  ∧ (∀ (args : Reflective.Flags) (workspaces : list Reflective.Workspace),
       value (Reflective.getWorkspaces w
                (Reflective.kongAddr w args +:+ "/workspaces"))
         = Ok workspaces →
       printed (trace (Reflective.main w args))
         = omap (ReflectiveSpec.errorLineOf w (Reflective.kongAddr w args)
                   (Reflective.getHeaders w (Reflective.flag_headers args)))
             workspaces
           ++ ["Individual Workspace Metadata:"; "Total Entity Counts:"]).
Proof.
  split; intros args workspaces Hlist.
  - rewrite main_trace, Hlist. cbn zeta.
    change (printed (HttpGet ?u :: ?t)) with (printed t).
    rewrite !printed_app.
    destruct (fetchAll_trace w (MapBased.kongAddr w args)
                (MapBased.flag_headers args) workspaces ∅ []) as [_ ->].
    by repeat case_decide.
  - rewrite mainR_trace, Hlist. cbn zeta.
    change (printed (HttpGet ?u :: ?t)) with (printed t).
    rewrite !printed_app.
    by destruct (fetchAllR_trace w (Reflective.kongAddr w args)
                (Reflective.getHeaders w (Reflective.flag_headers args))
                workspaces ∅ []) as [_ ->].
Qed.

Section ErrorLineWitness.
Import Demo.

Lemma one_error_line_per_failure_witness :
  printed (trace (Reflective.main (world noEnv false)
                    (Reflective.mkFlags "" "")))
  = ["Error getting metadata for workspace b: connection refused";
     "Individual Workspace Metadata:"; "Total Entity Counts:"].
Proof.
  destruct (one_error_line_per_failure (world noEnv false)) as [_ Hr].
  etrans; [apply (Hr (Reflective.mkFlags "" "")
                    [Reflective.mkWorkspace "a" "1";
                     Reflective.mkWorkspace "b" "2"]);
           reflexivity|].
  vm_compute. reflexivity.
Defined.

End ErrorLineWitness.

(** ** Rows of the per-workspace table *)

Section RowOrder.
Context `{!GoRuntime}.



End RowOrder.


Section RowOrderWitness.
Import Demo.


End RowOrderWitness.

(** X9.  The per-workspace table of the map-based variant shows the five
    counters [plugins], [targets], [services], [routes], [upstreams] and no
    other: a key of the counts other than these five changes no cell, and a
    counter the counts do not have is shown as 0. *)
Theorem workspace_row_shows_five_counters (name : string)
    (counts : gmap string Z) :
  (∀ k v, k ∉ ["plugins"; "targets"; "services"; "routes"; "upstreams"] →
     MapBased.workspaceRow
       (MapBased.mkWorkspaceMetadata name
          (MapBased.mkMetadata (<[k := v]> counts)))
     = MapBased.workspaceRow
         (MapBased.mkWorkspaceMetadata name (MapBased.mkMetadata counts)))
  ∧ (∀ k, k ∈ ["plugins"; "targets"; "services"; "routes"; "upstreams"] →
       MapBased.workspaceRow
         (MapBased.mkWorkspaceMetadata name
            (MapBased.mkMetadata (delete k counts)))
       = MapBased.workspaceRow
           (MapBased.mkWorkspaceMetadata name
              (MapBased.mkMetadata (<[k := 0]> counts)))).
Proof.
  split.
  - intros k v Hk. unfold MapBased.workspaceRow, MapBased.index. simpl.
    rewrite !lookup_insert_ne; [done|..]; intros ->; apply Hk; set_solver.
  - intros k Hk. unfold MapBased.workspaceRow, MapBased.index. simpl.
    repeat (apply elem_of_cons in Hk as [->|Hk];
            [by rewrite ?lookup_delete_eq, ?lookup_insert_eq,
                  ?lookup_delete_ne, ?lookup_insert_ne by done|]).
    by inversion Hk.
Qed.

Lemma workspace_row_shows_five_counters_witness :
  MapBased.workspaceRow
    (MapBased.mkWorkspaceMetadata "a"
       (MapBased.mkMetadata (<["consumers" := 7]> {["plugins" := 2]})))
  = MapBased.workspaceRow
      (MapBased.mkWorkspaceMetadata "a" (MapBased.mkMetadata {["plugins" := 2]})).
Proof.
  apply (proj1 (workspace_row_shows_five_counters "a" {["plugins" := 2]})).
  vm_compute. intros Hin.
  repeat (apply elem_of_cons in Hin as [Heq|Hin]; [discriminate Heq|]).
  by inversion Hin.
Defined.

(** ** The [--meta] flag and the empty list *)

Section EmptyMap.
Context `{!GoRuntime}.

Lemma map_range_empty : map_range ∅ = [].
Proof.
  apply Permutation_nil_r. rewrite map_range_perm. by rewrite map_to_list_empty.
Qed.

Lemma sortedMetaFields_empty : MapBased.sortedMetaFields ∅ = [].
Proof.
  unfold MapBased.sortedMetaFields. apply Permutation_nil_r.
  by rewrite sort_Slice_perm, map_range_empty.
Qed.

End EmptyMap.

(** X10.  In the map-based variant a [--meta] value other than
    [workspace], [counts] and [all] is not an error: [main] still asks for
    the list and for the metadata of every workspace, exactly as under
    [all], but renders no table. *)
Theorem unknown_meta_renders_nothing
    `{!GoRuntime}
    `{!Unmarshal MapBased.WorkspaceResponse, !Unmarshal MapBased.Metadata}
    (w : World) (args : MapBased.Flags) :
  MapBased.flag_meta args ≠ "workspace" →
  MapBased.flag_meta args ≠ "counts" →
  MapBased.flag_meta args ≠ "all" →
  tables (trace (MapBased.main w args)) = []
  ∧ requests (trace (MapBased.main w args))
    = requests (trace (MapBased.main w
                         (MapBased.mkFlags (MapBased.flag_kong_addr args)
                            (MapBased.flag_headers args) "all")))
  ∧ head (trace (MapBased.main w args))
    = Some (HttpGet (MapBased.kongAddr w args +:+ "/workspaces")).
Proof.
  intros Hw Hc Ha.
  assert (MapBased.kongAddr w
            (MapBased.mkFlags (MapBased.flag_kong_addr args)
               (MapBased.flag_headers args) "all")
          = MapBased.kongAddr w args) as Haddr by done.
  rewrite !main_trace, Haddr. cbn [MapBased.flag_headers MapBased.flag_meta].
  split; [|split; [|done]].
  - change (tables (HttpGet ?u :: ?t)) with (tables t).
    destruct (value (MapBased.getWorkspaces w _)) as [workspaces|e]; [|done].
    cbn zeta. rewrite !tables_app, fetchAll_tables.
    rewrite !decide_False by (intros [?|?]; done). done.
  - change (requests (HttpGet ?u :: ?t)) with (requests t).
    destruct (value (MapBased.getWorkspaces w _)) as [workspaces|e]; [|done].
    cbn zeta. rewrite !requests_app. by repeat case_decide.
Qed.

Section MetaWitness.
Import Demo.

Lemma unknown_meta_renders_nothing_witness :
  tables (trace (MapBased.main (world noEnv true)
                   (MapBased.mkFlags "" "" "everything"))) = [].
Proof.
  refine (proj1 (unknown_meta_renders_nothing (world noEnv true)
                   (MapBased.mkFlags "" "" "everything") _ _ _));
    discriminate.
Defined.

End MetaWitness.

(** X11.  When the workspace list decodes to no workspace at all, nothing
    is asked after the list and nothing is an error: the per-workspace
    table has no row and the totals table has only the row [Workspaces 0].
    The reflective variant renders both; the map-based variant renders
    those [--meta] asks for. *)
Theorem empty_list_renders_empty_tables
    `{!GoRuntime}
    `{!Unmarshal MapBased.WorkspaceResponse, !Unmarshal MapBased.Metadata}
    `{!Unmarshal Reflective.WorkspaceResponse, !Unmarshal Reflective.Metadata}
    (w : World) :
  (∀ args : MapBased.Flags,
     value (MapBased.getWorkspaces w
              (MapBased.kongAddr w args +:+ "/workspaces")) = Ok [] →
     trace (MapBased.main w args) =
       [HttpGet (MapBased.kongAddr w args +:+ "/workspaces")]
       ++ (if decide (MapBased.flag_meta args = "workspace"
                      ∨ MapBased.flag_meta args = "all")
           then [Println "Individual Workspace Metadata:";
                 Render ["Workspace Name"; "Plugins"; "Targets"; "Services";
                         "Routes"; "Upstreams"] []]
           else [])
       ++ (if decide (MapBased.flag_meta args = "counts"
                      ∨ MapBased.flag_meta args = "all")
           then [Println "Total Meta Field Counts:";
                 Render ["Meta Field"; "Count"] [["Workspaces"; "0"]]]
           else []))
  ∧ (∀ args : Reflective.Flags,
       value (Reflective.getWorkspaces w
                (Reflective.kongAddr w args +:+ "/workspaces")) = Ok [] →
       trace (Reflective.main w args) =
         [HttpGet (Reflective.kongAddr w args +:+ "/workspaces");
          Println "Individual Workspace Metadata:";
          Render ["Workspace"; "Plugins"; "Targets"; "Services"; "Routes";
                  "Upstreams"] [];
          Println "Total Entity Counts:";
          Render ["Meta Field"; "Count"] [["Workspaces"; "0"]]]).
Proof.
  split; intros args Hlist.
  - rewrite main_trace, Hlist. cbn.
    unfold MapBased.countsTableRows, MapBasedSpec.aggregate. cbn.
    by rewrite sortedMetaFields_empty.
  - rewrite mainR_trace, Hlist. cbn.
    unfold Reflective.countsTableRows, ReflectiveSpec.aggregate. cbn.
    by rewrite map_range_empty.
Qed.

Section EmptyListWitness.
Import Demo.

Lemma empty_list_renders_empty_tables_witness :
  trace (@Reflective.main runtime emptyListDecoderR metaDecoderR
           (world noEnv true) (Reflective.mkFlags "" ""))
  = [HttpGet "http://localhost:8001/workspaces";
     Println "Individual Workspace Metadata:";
     Render ["Workspace"; "Plugins"; "Targets"; "Services"; "Routes";
             "Upstreams"] [];
     Println "Total Entity Counts:";
     Render ["Meta Field"; "Count"] [["Workspaces"; "0"]]].
Proof.
  apply (proj2 (@empty_list_renders_empty_tables runtime emptyListDecoderM
                  metaDecoderM emptyListDecoderR metaDecoderR
                  (world noEnv true))).
  reflexivity.
Defined.

End EmptyListWitness.

(** ** Order of the workspace list *)

(** X12.  The aggregate [main] ends its loop with does not depend on the
    order of the workspace list: for two lists with the same workspaces in
    different orders, served by the same world, the loops end with the same
    aggregate.  Both variants. *)
Theorem aggregate_ignores_list_order
    `{!GoRuntime, !Unmarshal MapBased.Metadata, !Unmarshal Reflective.Metadata}
    (w : World) (urlPtr : string) :
  (∀ (headersPtr : string) (workspaces1 workspaces2 : list MapBased.Workspace),
     workspaces1 ≡ₚ workspaces2 →
     (value (MapBased.fetchAll w urlPtr headersPtr workspaces1 ∅ [])).1
     = (value (MapBased.fetchAll w urlPtr headersPtr workspaces2 ∅ [])).1)
  ∧ (∀ (headers : Header) (workspaces1 workspaces2 : list Reflective.Workspace),
       workspaces1 ≡ₚ workspaces2 →
       fst <$> value (Reflective.fetchAll w urlPtr headers workspaces1 ∅ [])
       = fst <$> value (Reflective.fetchAll w urlPtr headers workspaces2 ∅ [])).
Proof.
  split.
  - intros headersPtr workspaces1 workspaces2 Hperm.
    rewrite !fetchAll_value. cbn [fst].
    apply (foldl_swap_perm (λ counts m, MapBased.updateCounts m counts)).
    + intros counts m1 m2. apply updateCounts_swap.
    + unfold MapBasedSpec.fetched. by rewrite Hperm.
  - intros headers workspaces1 workspaces2 Hperm.
    rewrite !fetchAllR_value. cbn. f_equal.
    apply (foldl_swap_perm ReflectiveSpec.addMetadata).
    + apply addMetadata_swap.
    + unfold ReflectiveSpec.fetched. by rewrite Hperm.
Qed.

Section ListOrderWitness.
Import Demo.

Lemma aggregate_ignores_list_order_witness :
  (value (MapBased.fetchAll (world noEnv true) "http://localhost:8001" ""
            [MapBased.mkWorkspace "a" "1"; MapBased.mkWorkspace "b" "2"]
            ∅ [])).1
  = (value (MapBased.fetchAll (world noEnv true) "http://localhost:8001" ""
              [MapBased.mkWorkspace "b" "2"; MapBased.mkWorkspace "a" "1"]
              ∅ [])).1.
Proof.
  apply (proj1 (aggregate_ignores_list_order (world noEnv true)
                  "http://localhost:8001")).
  apply perm_swap.
Defined.

End ListOrderWitness.

(** ** What the map-based variant does not read *)

Section SameNetwork.
Import MapBased.
Context `{!GoRuntime, !Unmarshal WorkspaceResponse, !Unmarshal Metadata}.
Context (w1 w2 : World).
Hypothesis same_Get : ∀ url, http_Get w1 url = http_Get w2 url.
Hypothesis same_Do : ∀ req, client_Do w1 req = client_Do w2 req.

Lemma getWorkspaces_same (url : string) :
  getWorkspaces w1 url = getWorkspaces w2 url.
Proof. unfold getWorkspaces. by rewrite same_Get. Qed.

Lemma getMetadata_same (url headers : string) :
  getMetadata w1 url headers = getMetadata w2 url headers.
Proof.
  unfold getMetadata. destruct (NewRequest "GET" url); [|done].
  by rewrite same_Do.
Qed.

Lemma fetchAll_same (urlPtr headersPtr : string)
    (workspaces : list Workspace) :
  ∀ counts workspaceMetadataList,
  fetchAll w1 urlPtr headersPtr workspaces counts workspaceMetadataList
  = fetchAll w2 urlPtr headersPtr workspaces counts workspaceMetadataList.
Proof.
  induction workspaces as [|workspace rest IH]; intros counts wml; [done|].
  cbn [fetchAll]. rewrite getMetadata_same.
  destruct (getMetadata w2 _ headersPtr) as [t [meta|e]];
    unfold mbind, IO_bind; by rewrite IH.
Qed.

End SameNetwork.

(** X13.  The map-based variant reads nothing of the environment but
    [KONG_ADMIN_ADDR]: in two worlds with the same network and the same
    [KONG_ADMIN_ADDR], whatever else their environments hold
    ([X_ADMIN_TOKEN] included), [main] does and prints the same. *)
Theorem mapbased_reads_only_kong_addr
    `{!GoRuntime}
    `{!Unmarshal MapBased.WorkspaceResponse, !Unmarshal MapBased.Metadata}
    (w1 w2 : World) (args : MapBased.Flags) :
  (∀ url, http_Get w1 url = http_Get w2 url) →
  (∀ req, client_Do w1 req = client_Do w2 req) →
  Getenv w1 "KONG_ADMIN_ADDR" = Getenv w2 "KONG_ADMIN_ADDR" →
  MapBased.main w1 args = MapBased.main w2 args.
Proof.
  intros HGet HDo Henv.
  assert (MapBased.kongAddr w1 args = MapBased.kongAddr w2 args) as Haddr
    by (unfold MapBased.kongAddr; by rewrite Henv).
  unfold MapBased.main. rewrite Haddr.
  rewrite (getWorkspaces_same w1 w2 HGet).
  destruct (MapBased.getWorkspaces w2 _) as [t [workspaces|e]];
    unfold mbind, IO_bind; [|done].
  by rewrite (fetchAll_same w1 w2 HDo).
Qed.

Section EnvWitness.
Import Demo.

Lemma mapbased_reads_only_kong_addr_witness :
  MapBased.main (world tokenEnv true) (MapBased.mkFlags "" "" "all")
  = MapBased.main (world noEnv true) (MapBased.mkFlags "" "" "all").
Proof.
  apply (mapbased_reads_only_kong_addr (world tokenEnv true)
           (world noEnv true)); reflexivity.
Defined.

End EnvWitness.

(** ** Order of the effects *)

(** X14.  [main] works in three phases that never interleave: the GET of
    the workspace list, then the loop over the workspaces, during which no
    table is rendered, then the printing, during which no request is sent.
    So no table shows before the last metadata request is done.  Both
    variants. *)
Theorem tables_follow_all_requests
    `{!GoRuntime}
    `{!Unmarshal MapBased.WorkspaceResponse, !Unmarshal MapBased.Metadata}
    `{!Unmarshal Reflective.WorkspaceResponse, !Unmarshal Reflective.Metadata}
    (w : World) :
  (∀ args : MapBased.Flags, ∃ loop printing,
     trace (MapBased.main w args)
       = HttpGet (MapBased.kongAddr w args +:+ "/workspaces")
           :: loop ++ printing
     ∧ tables loop = []
     ∧ requests printing = [])
  ∧ (∀ args : Reflective.Flags, ∃ loop printing,
       trace (Reflective.main w args)
         = HttpGet (Reflective.kongAddr w args +:+ "/workspaces")
             :: loop ++ printing
       ∧ tables loop = []
       ∧ requests printing = []).
Proof.
  split; intros args.
  - rewrite main_trace.
    destruct (value (MapBased.getWorkspaces w _)) as [workspaces|e].
    + cbn zeta. eexists _, _. split; [reflexivity|].
      split; [apply fetchAll_tables|].
      rewrite requests_app. by repeat case_decide.
    + exists [Println ("Error getting workspaces: " +:+ e)], [].
      by rewrite app_nil_r.
  - rewrite mainR_trace.
    destruct (value (Reflective.getWorkspaces w _)) as [workspaces|e].
    + cbn zeta. eexists _, _. split; [reflexivity|].
      split; [apply fetchAllR_tables|done].
    + exists [Println ("Error getting workspaces: " +:+ e)], [].
      by rewrite app_nil_r.
Qed.

(** ** No zero row in the reflective totals *)

Section PositiveTotals.
Import Reflective ReflectiveSpec.




End PositiveTotals.


